(** * DataWoven company website: route guard, cookie bridge and auth state store

    A shallow embedding of

    - [middleware] (the Next.js route guard, [middleware.ts]),
    - [setAuthCookies] / [clearAuthCookies] (the cookie bridge) and
    - [refreshUser] / [login] / [logout] (the auth state store of
      [AuthProvider], [contexts/AuthContext.tsx])

    together with the properties of the specification that concern
    them.  Cookies are kept in a finite map from cookie name to cookie
    value; the asynchronous store operations are written in a small
    state-and-exception monad whose [try_catch] and [try_finally] follow
    the JavaScript statements of the same name. *)

From Stdlib Require Import String Ascii List Bool ZArith Lia.
From stdpp Require Import base option gmap strings.
Import ListNotations.

Local Open Scope string_scope.

(** ** JavaScript string helpers *)

Module Js.

(** [s.startsWith(p)] *)
Fixpoint startsWith (s p : string) {struct p} : bool :=
  match p with
  | EmptyString => true
  | String c p' =>
      match s with
      | EmptyString => false
      | String d s' => Ascii.eqb d c && startsWith s' p'
      end
  end.

(** Truthiness of a value of type [string | undefined]: [undefined] and
    the empty string are falsy, every other string is truthy. *)
Definition truthy (v : option string) : bool :=
  match v with
  | Some s => negb (String.eqb s "")
  | None => false
  end.

(** [a || b] where [a : string | undefined] and [b : string]. *)
Definition or_else (a : option string) (b : string) : string :=
  match a with
  | Some s => if String.eqb s "" then b else s
  | None => b
  end.

(** Optional chaining [o?.f] for a field [f] that may itself be absent. *)
Definition opt {A B} (o : option A) (f : A -> option B) : option B :=
  match o with
  | Some a => f a
  | None => None
  end.

(** [a !== b] on [string | undefined] (strict, case-sensitive). *)
Definition strict_neq (a b : option string) : bool :=
  match a, b with
  | Some x, Some y => negb (String.eqb x y)
  | None, None => false
  | _, _ => true
  end.

End Js.

(** ** URLs and responses *)

Record URL := mkURL {
  origin : string;                       (* scheme://host[:port] *)
  pathname : string;
  searchParams : list (string * string)
}.

(** [new URL(path, base)] for an absolute-path reference [path] (both
    uses in the guard pass a literal starting with a slash): the origin
    is taken from [base], path and query of [base] are dropped. *)
Definition URL_new (path : string) (base : URL) : URL :=
  {| origin := origin base; pathname := path; searchParams := [] |}.

(** [params.set(k, v)]: the first pair named [k] receives [v] and later
    pairs named [k] are removed; when there is none, the pair is
    appended. *)
Fixpoint searchParams_drop (k : string) (ps : list (string * string))
  : list (string * string) :=
  match ps with
  | [] => []
  | (k', v') :: ps' =>
      if String.eqb k' k then searchParams_drop k ps'
      else (k', v') :: searchParams_drop k ps'
  end.

Fixpoint searchParams_set (k v : string) (ps : list (string * string))
  : list (string * string) :=
  match ps with
  | [] => [(k, v)]
  | (k', v') :: ps' =>
      if String.eqb k' k then (k, v) :: searchParams_drop k ps'
      else (k', v') :: searchParams_set k v ps'
  end.

Definition URL_set_param (k v : string) (u : URL) : URL :=
  {| origin := origin u; pathname := pathname u;
     searchParams := searchParams_set k v (searchParams u) |}.

(** What the guard hands back to the framework: [NextResponse.next()]
    or [NextResponse.redirect(url)]. *)
Inductive NextResponse :=
| Next
| Redirect (target : URL).

(** An incoming request: its URL and the cookies of its [Cookie]
    header, by name.  [request.nextUrl] is [request.url] parsed. *)
Record NextRequest := mkRequest {
  url : URL;
  cookies : gmap string string
}.

(** ** The three cookie names *)

Definition ACCESS_TOKEN_COOKIE : string :=
  "CognitoIdentityServiceProvider.accessToken".
Definition ID_TOKEN_COOKIE : string :=
  "CognitoIdentityServiceProvider.idToken".
Definition USER_GROUP_COOKIE : string :=
  "CognitoIdentityServiceProvider.userGroup".

(** ** The route guard *)

Module RouteGuard.

Definition isAuthenticatedRoute (pathname : string) : bool :=
  Js.startsWith pathname "/dashboard" ||
  Js.startsWith pathname "/discovery" ||
  Js.startsWith pathname "/implementation" ||
  Js.startsWith pathname "/account" ||
  Js.startsWith pathname "/admin".

Definition isAdminRoute (pathname : string) : bool :=
  Js.startsWith pathname "/admin".

Definition isPublicRoute (pathname : string) : bool :=
  Js.startsWith pathname "/login" ||
  Js.startsWith pathname "/signup" ||
  Js.startsWith pathname "/forgot-password" ||
  Js.startsWith pathname "/reset-password" ||
  String.eqb pathname "/".

(** [!!(accessToken && idToken)]: [cookies.get] yields a cookie object
    or [undefined]; an object is truthy whatever its value is. *)
Definition isAuthenticated (request : NextRequest) : bool :=
  match cookies request !! ACCESS_TOKEN_COOKIE,
        cookies request !! ID_TOKEN_COOKIE with
  | Some _, Some _ => true
  | _, _ => false
  end.

Definition middleware (request : NextRequest) : NextResponse :=
  let pathname := pathname (url request) in
  let userGroup := cookies request !! USER_GROUP_COOKIE in
  let isAuthenticated := isAuthenticated request in
  if isAuthenticatedRoute pathname && negb isAuthenticated then
    let loginUrl := URL_new "/login" (url request) in
    Redirect (URL_set_param "redirect" pathname loginUrl)
  else if isAdminRoute pathname && isAuthenticated &&
          Js.strict_neq userGroup (Some "DataWovenAdmin") then
    let dashboardUrl := URL_new "/dashboard" (url request) in
    Redirect (URL_set_param "error" "unauthorized" dashboardUrl)
  else if isPublicRoute pathname && isAuthenticated &&
          Js.startsWith pathname "/login" then
    Redirect (URL_new "/dashboard" (url request))
  else
    Next.

End RouteGuard.

(** ** The browser's cookie jar

    [document.cookie = s] hands the string [s] to the browser, which
    reads it as a set-cookie-string (RFC 6265, section 5.2): the text
    before the first semicolon is the name-value pair, cut at its first
    equals sign; the remaining semicolon-separated pieces are
    attributes.  Of the attributes only [Max-Age] and [Expires] decide
    whether the cookie is stored or removed.  The jar maps the names of
    the stored cookies to their values; the passing of time (a stored
    cookie leaving the jar when its max-age has elapsed) is outside the
    model. *)

Module Cookie.

Definition is_ws (c : ascii) : bool :=
  Ascii.eqb c " " || Ascii.eqb c "009".

Fixpoint trim_left (s : string) : string :=
  match s with
  | EmptyString => EmptyString
  | String c s' => if is_ws c then trim_left s' else s
  end.

Fixpoint trim_right (s : string) : string :=
  match s with
  | EmptyString => EmptyString
  | String c s' =>
      match trim_right s' with
      | EmptyString => if is_ws c then EmptyString else String c EmptyString
      | t => String c t
      end
  end.

Definition trim (s : string) : string := trim_right (trim_left s).

(** The pieces of [s] between occurrences of [c]. *)
Fixpoint split_on (c : ascii) (s : string) : list string :=
  match s with
  | EmptyString => [EmptyString]
  | String d s' =>
      if Ascii.eqb d c then EmptyString :: split_on c s'
      else match split_on c s' with
           | h :: t => String d h :: t
           | [] => [String d EmptyString]
           end
  end.

(** [s] cut at its first occurrence of [c], when there is one. *)
Fixpoint cut (c : ascii) (s : string) : option (string * string) :=
  match s with
  | EmptyString => None
  | String d s' =>
      if Ascii.eqb d c then Some (EmptyString, s')
      else match cut c s' with
           | Some (a, b) => Some (String d a, b)
           | None => None
           end
  end.

Fixpoint occurs (c : ascii) (s : string) : bool :=
  match s with
  | EmptyString => false
  | String d s' => Ascii.eqb d c || occurs c s'
  end.

Definition lower (c : ascii) : ascii :=
  let n := nat_of_ascii c in
  if (65 <=? n)%nat && (n <=? 90)%nat then ascii_of_nat (n + 32) else c.

Fixpoint lowercase (s : string) : string :=
  match s with
  | EmptyString => EmptyString
  | String c s' => String (lower c) (lowercase s')
  end.

Definition digit (c : ascii) : option Z :=
  let n := nat_of_ascii c in
  if (48 <=? n)%nat && (n <=? 57)%nat then Some (Z.of_nat (n - 48)) else None.

Fixpoint digits (s : string) (acc : Z) : option Z :=
  match s with
  | EmptyString => Some acc
  | String c s' =>
      match digit c with
      | Some d => digits s' (10 * acc + d)%Z
      | None => None
      end
  end.

(** The value of a [Max-Age] attribute: an optional minus sign and
    digits; anything else makes the browser ignore the attribute. *)
Definition delta_seconds (v : string) : option Z :=
  match v with
  | EmptyString => None
  | String "-" EmptyString => None
  | String "-" rest => option_map Z.opp (digits rest 0)
  | _ => digits v 0
  end.

Inductive attribute :=
| MaxAge (delta : Z)
| Expires (date : string)
| OtherAttribute.

Definition parse_attribute (a : string) : attribute :=
  let '(k, v) := match cut "=" a with
                 | Some (k, v) => (trim k, trim v)
                 | None => (trim a, EmptyString)
                 end in
  if String.eqb (lowercase k) "max-age" then
    match delta_seconds v with
    | Some n => MaxAge n
    | None => OtherAttribute
    end
  else if String.eqb (lowercase k) "expires" then Expires v
  else OtherAttribute.

(** The last [Max-Age] and the last [Expires] of an attribute list. *)
Definition last_max_age (attrs : list attribute) : option Z :=
  fold_left (fun acc a => match a with MaxAge n => Some n | _ => acc end)
            attrs None.

Definition last_expires (attrs : list attribute) : option string :=
  fold_left (fun acc a => match a with Expires d => Some d | _ => acc end)
            attrs None.

(** The one date the program writes is the Unix epoch, which lies
    before every present moment.  The model has no clock: any other
    date counts as lying in the future. *)
Definition date_in_past (date : string) : bool :=
  String.eqb date "Thu, 01 Jan 1970 00:00:00 GMT".

(** [Max-Age] has precedence over [Expires]; a cookie whose lifetime is
    already over is removed instead of stored. *)
Definition expired (attrs : list attribute) : bool :=
  match last_max_age attrs with
  | Some n => (n <=? 0)%Z
  | None =>
      match last_expires attrs with
      | Some d => date_in_past d
      | None => false
      end
  end.

Record set_cookie := mkSetCookie {
  sc_name : string;
  sc_value : string;
  sc_expired : bool
}.

(** A set-cookie-string without an equals sign in its name-value pair,
    or with an empty name, is ignored. *)
Definition parse (s : string) : option set_cookie :=
  match split_on ";" s with
  | [] => None
  | nv :: attrs =>
      match cut "=" nv with
      | None => None
      | Some (n, v) =>
          if String.eqb (trim n) "" then None
          else Some {| sc_name := trim n;
                       sc_value := trim v;
                       sc_expired := expired (map parse_attribute attrs) |}
      end
  end.

Definition store (c : set_cookie) (jar : gmap string string)
  : gmap string string :=
  if sc_expired c then delete (sc_name c) jar
  else <[sc_name c := sc_value c]> jar.

(** [document.cookie = s] *)
Definition assign (s : string) (jar : gmap string string)
  : gmap string string :=
  match parse s with
  | Some c => store c jar
  | None => jar
  end.

End Cookie.

(** ** What the identity provider client hands out *)

Module Amplify.

(** A JSON web token: its compact serialisation and, of its payload,
    the claim [payload["cognito:groups"]] (absent for a user without
    groups). *)
Record JWT := mkJWT {
  toString : string;
  cognito_groups : option (list string)
}.

Record AuthTokens := mkTokens {
  accessToken : option JWT;
  idToken : option JWT
}.

Record AuthSession := mkSession {
  tokens : option AuthTokens
}.

Record AuthUser := mkAuthUser {
  userId : string;
  username : string;
  loginId : option string          (* signInDetails?.loginId *)
}.

Record SignInOutput := mkSignInOutput {
  isSignedIn : bool;
  signInStep : string              (* nextStep.signInStep *)
}.

End Amplify.

(** An interpolated [${v}] of a template literal. *)
Definition template (v : option string) : string :=
  match v with
  | Some s => s
  | None => "undefined"
  end.

(** ** The cookie bridge

    [window] is [None] where the code runs without a browser
    ([typeof window === "undefined"]) and otherwise holds the cookie
    jar behind [document.cookie]. *)

Module CookieBridge.

(** [tokens?.accessToken?.payload["cognito:groups"] || []]: an array,
    even an empty one, is truthy. *)
Definition groupsOf (tokens : option Amplify.AuthTokens) : list string :=
  match Js.opt (Js.opt tokens Amplify.accessToken) Amplify.cognito_groups with
  | Some gs => gs
  | None => []
  end.

(** [groups[0] || "none"] *)
Definition primaryGroupOf (tokens : option Amplify.AuthTokens) : string :=
  Js.or_else (head (groupsOf tokens)) "none".

Definition setAuthCookies (tokens : option Amplify.AuthTokens)
    (window : option (gmap string string)) : option (gmap string string) :=
  match window with
  | Some jar =>
      let accessToken := option_map Amplify.toString (Js.opt tokens Amplify.accessToken) in
      let idToken := option_map Amplify.toString (Js.opt tokens Amplify.idToken) in
      let primaryGroup := primaryGroupOf tokens in
      if Js.truthy accessToken && Js.truthy idToken then
        let jar1 := Cookie.assign
          ("CognitoIdentityServiceProvider.accessToken=" +:+ template accessToken
             +:+ "; path=/; max-age=3600; SameSite=Lax") jar in
        let jar2 := Cookie.assign
          ("CognitoIdentityServiceProvider.idToken=" +:+ template idToken
             +:+ "; path=/; max-age=3600; SameSite=Lax") jar1 in
        let jar3 := Cookie.assign
          ("CognitoIdentityServiceProvider.userGroup=" +:+ primaryGroup
             +:+ "; path=/; max-age=3600; SameSite=Lax") jar2 in
        Some jar3
      else Some jar
  | None => None
  end.

Definition clearAuthCookies (window : option (gmap string string))
  : option (gmap string string) :=
  match window with
  | Some jar =>
      let jar1 := Cookie.assign
        "CognitoIdentityServiceProvider.accessToken=; path=/; expires=Thu, 01 Jan 1970 00:00:00 GMT" jar in
      let jar2 := Cookie.assign
        "CognitoIdentityServiceProvider.idToken=; path=/; expires=Thu, 01 Jan 1970 00:00:00 GMT" jar1 in
      let jar3 := Cookie.assign
        "CognitoIdentityServiceProvider.userGroup=; path=/; expires=Thu, 01 Jan 1970 00:00:00 GMT" jar2 in
      Some jar3
  | None => None
  end.

End CookieBridge.

(** ** The auth state store *)

Definition Error := string.

Record User := mkUser {
  email : string;
  userId : string;
  groups : list string;
  attributes : gmap string string
}.

(** An entry of the browser console. *)
Inductive Logged :=
| LogCurrentUser (label : string) (u : Amplify.AuthUser)
| LogSession (label : string) (s : Amplify.AuthSession)
| LogGroups (label : string) (gs : list string)
| LogResult (label : string) (r : Amplify.SignInOutput)
| LogError (label : string) (e : Error).

(** The state the store operations act on: the two React state cells
    of [AuthProvider], the browser window with its cookie jar, and the
    console. *)
Record World := mkWorld {
  user : option User;
  loading : bool;
  window : option (gmap string string);
  console : list Logged
}.

(** How a statement or an awaited promise completes. *)
Inductive Completion (A : Type) :=
| Normal (a : A)
| Throw (e : Error).
Arguments Normal {A} a.
Arguments Throw {A} e.

(** The outcomes of the identity provider calls during one store
    operation.  The provider is an external collaborator: each call
    either resolves with a value or rejects with an error. *)
Record Provider := mkProvider {
  getCurrentUser : Completion Amplify.AuthUser;
  fetchAuthSession : Completion Amplify.AuthSession;
  fetchUserAttributes : Completion (gmap string string);
  signIn : string -> string -> Completion Amplify.SignInOutput;
  signOut : Completion unit
}.

Module Async.

Definition t (A : Type) : Type := World -> Completion A * World.

Definition ret {A} (a : A) : t A := fun w => (Normal a, w).

Definition throw {A} (e : Error) : t A := fun w => (Throw e, w).

Definition bind {A B} (m : t A) (k : A -> t B) : t B :=
  fun w =>
    match m w with
    | (Normal a, w') => k a w'
    | (Throw e, w') => (Throw e, w')
    end.

(** [await p] for a promise whose outcome is [p]. *)
Definition await {A} (p : Completion A) : t A := fun w => (p, w).

(** [try { body } catch (error) { handler error }] *)
Definition try_catch {A} (body : t A) (handler : Error -> t A) : t A :=
  fun w =>
    match body w with
    | (Normal a, w') => (Normal a, w')
    | (Throw e, w') => handler e w'
    end.

(** [try { body } finally { cleanup }]: the cleanup runs on every exit
    of the body; the body's completion stands unless the cleanup itself
    throws. *)
Definition try_finally {A} (body : t A) (cleanup : t unit) : t A :=
  fun w =>
    let '(r, w') := body w in
    match cleanup w' with
    | (Normal _, w'') => (r, w'')
    | (Throw e, w'') => (Throw e, w'')
    end.

Definition setUser (u : option User) : t unit :=
  fun w => (Normal tt, {| user := u; loading := loading w;
                          window := window w; console := console w |}).

Definition setLoading (b : bool) : t unit :=
  fun w => (Normal tt, {| user := user w; loading := b;
                          window := window w; console := console w |}).

Definition log (entry : Logged) : t unit :=
  fun w => (Normal tt, {| user := user w; loading := loading w;
                          window := window w;
                          console := console w ++ [entry] |}).

(** A synchronous helper that acts on the window only. *)
Definition on_window (f : option (gmap string string) -> option (gmap string string))
  : t unit :=
  fun w => (Normal tt, {| user := user w; loading := loading w;
                          window := f (window w); console := console w |}).

End Async.

Notation "'let*' x ':=' m 'in' k" := (Async.bind m (fun x => k))
  (at level 10, x name, m at level 100, k at level 200).
Notation "m ';;' k" := (Async.bind m (fun _ => k))
  (at level 100, k at level 200, right associativity).

Module AuthProvider.

Import Async.

Definition refreshUser (p : Provider) : Async.t unit :=
  try_finally
    (try_catch
       (let* currentUser := await (getCurrentUser p) in
        let* session := await (fetchAuthSession p) in
        let* attributes := await (fetchUserAttributes p) in
        let groups := CookieBridge.groupsOf (Amplify.tokens session) in
        log (LogCurrentUser "RefreshUser - Current user:" currentUser) ;;
        log (LogSession "RefreshUser - Session:" session) ;;
        log (LogGroups "RefreshUser - Groups:" groups) ;;
        on_window (CookieBridge.setAuthCookies (Amplify.tokens session)) ;;
        setUser (Some {|
          email :=
            Js.or_else (attributes !! "email")
              (Js.or_else (Amplify.loginId currentUser) "");
          userId := Amplify.userId currentUser;
          groups := groups;
          attributes := attributes |}))
       (fun error =>
          log (LogError "RefreshUser error:" error) ;;
          setUser None))
    (setLoading false).

Definition login (p : Provider) (email password : string)
  : Async.t Amplify.SignInOutput :=
  try_catch
    (let* result := await (signIn p email password) in
     log (LogResult "Login result:" result) ;;
     ret result)
    (fun error =>
       log (LogError "Login error:" error) ;;
       throw error).

Definition logout (p : Provider) : Async.t unit :=
  try_catch
    (await (signOut p) ;;
     on_window CookieBridge.clearAuthCookies ;;
     setUser None)
    (fun error =>
       log (LogError "Logout error:" error) ;;
       throw error).

End AuthProvider.

(** ** Observations used by the statements *)

(** The decision a response carries, apart from the origin the redirect
    URL inherits from the request. *)
Inductive Decision :=
| Continue
| RedirectTo (target : string) (query : list (string * string)).

Definition decision (r : NextResponse) : Decision :=
  match r with
  | Next => Continue
  | Redirect u => RedirectTo (pathname u) (searchParams u)
  end.

(** The request the browser sends for [path] with the cookies of [jar]
    (all three cookies are written with [path=/], hence sent along with
    every path). *)
Definition request_for (host path : string) (jar : gmap string string)
  : NextRequest :=
  {| url := {| origin := host; pathname := path; searchParams := [] |};
     cookies := jar |}.

(** The calls the page layer makes on the store, each with the
    provider outcomes it meets. *)
Inductive Call :=
| CallRefreshUser (p : Provider)
| CallLogin (p : Provider) (email password : string)
| CallLogout (p : Provider).

Definition run_call (c : Call) (w : World) : World :=
  match c with
  | CallRefreshUser p => snd (AuthProvider.refreshUser p w)
  | CallLogin p e pw => snd (AuthProvider.login p e pw w)
  | CallLogout p => snd (AuthProvider.logout p w)
  end.

Definition run (cs : list Call) (w : World) : World :=
  fold_left (fun w c => run_call c w) cs w.

(** [AuthProvider] as mounted in a browser without cookies:
    [useState(null)], [useState(true)]. *)
Definition initial : World :=
  {| user := None; loading := true; window := Some ∅; console := [] |}.

(** Do the cookies of the world let the route guard treat requests as
    authenticated? *)
Definition cookies_assert_authentication (w : World) : bool :=
  match window w with
  | Some jar => RouteGuard.isAuthenticated (request_for "https://datawoven.example" "/" jar)
  | None => false
  end.

(** ** Vocabulary of the statements *)

(** The name of a cookie as the bridge spells it: free of separators
    and of surrounding blanks, and not empty. *)
Definition literal_name (name : string) : bool :=
  negb (Cookie.occurs ";" name) && negb (Cookie.occurs "=" name) &&
  String.eqb (Cookie.trim name) name && negb (String.eqb name "").

(** A cookie value that survives the browser's reading unchanged. *)
Definition plain (v : string) : bool :=
  negb (Cookie.occurs ";" v) && String.eqb (Cookie.trim v) v.

(** A value of type [string | undefined] that is missing: [undefined]
    or the empty string. *)
Definition missing (v : option string) : Prop := v = None \/ v = Some "".

(** At least one of the three provider calls of [refreshUser] rejects. *)
Definition refresh_fails (p : Provider) : Prop :=
  (exists e, getCurrentUser p = Throw e) \/
  (exists e, fetchAuthSession p = Throw e) \/
  (exists e, fetchUserAttributes p = Throw e).

(** Any call, except a [refreshUser] that meets a provider failure. *)
Definition no_failed_refresh (c : Call) : Prop :=
  match c with
  | CallRefreshUser p => ~ refresh_fails p
  | _ => True
  end.

(** An empty session comes without token cookies that assert
    authentication. *)
Definition projection_sound (w : World) : Prop :=
  user w = None -> cookies_assert_authentication w = false.

(** The React state of the store, apart from window and console. *)
Definition session_state (w : World) : option User * bool :=
  (user w, loading w).

(** ** Sample data

    Concrete tokens, provider outcomes and worlds on which the
    statements below are exercised. *)

(** A session whose access token carries the group claim [gs]. *)
Definition tokens_with_groups (gs : option (list string))
  : option Amplify.AuthTokens :=
  Some {| Amplify.accessToken :=
            Some {| Amplify.toString := "eyJraWQi.eyJzdWIi.c2ln";
                    Amplify.cognito_groups := gs |};
          Amplify.idToken :=
            Some {| Amplify.toString := "eyJraWQi.eyJhdWQi.c2ln";
                    Amplify.cognito_groups := None |} |}.

(** A jar with both token cookies and a group cookie that differs from
    the administrative group in case only. *)
Definition lowercase_admin_jar : gmap string string :=
  <[USER_GROUP_COOKIE := "datawovenadmin"]>
    (<[ID_TOKEN_COOKIE := "id"]> (<[ACCESS_TOKEN_COOKIE := "acc"]> ∅)).

Definition ann : Amplify.AuthUser :=
  {| Amplify.userId := "3f1c-ann"; Amplify.username := "ann";
     Amplify.loginId := Some "ann@datawoven.example" |}.

(** Every call resolves; the session carries both tokens and the group
    claim [gs]. *)
Definition provider_signed_in (gs : option (list string)) : Provider :=
  {| getCurrentUser := Normal ann;
     fetchAuthSession := Normal {| Amplify.tokens := tokens_with_groups gs |};
     fetchUserAttributes := Normal {[ "email" := "ann@datawoven.example" ]};
     signIn := fun _ _ => Normal {| Amplify.isSignedIn := true;
                                    Amplify.signInStep := "DONE" |};
     signOut := Normal tt |}.

(** Every call rejects with [e]: the provider session has expired, or
    the network is down. *)
Definition provider_failing (e : Error) : Provider :=
  {| getCurrentUser := Throw e;
     fetchAuthSession := Throw e;
     fetchUserAttributes := Throw e;
     signIn := fun _ _ => Throw e;
     signOut := Throw e |}.

(** The world after mounting and one successful refresh. *)
Definition signed_in : World :=
  run [CallRefreshUser (provider_signed_in (Some ["ImplementationUser"]))]
      initial.

(** The attribute fetch alone rejects. *)
Definition provider_attributes_failing : Provider :=
  {| getCurrentUser := Normal ann;
     fetchAuthSession :=
       Normal {| Amplify.tokens := tokens_with_groups (Some ["DataWovenAdmin"]) |};
     fetchUserAttributes := Throw "NetworkError";
     signIn := fun _ _ => Throw "NetworkError";
     signOut := Normal tt |}.

(** * The pages and components around the store

    The callers of the store in the page layer: the site header with
    its user menu, the login page, and the password pages.  Strings
    are sequences of code units below 256; event objects
    ([e.preventDefault()]) and rendering are left out. *)

(** ** More of the JavaScript library *)

Module JsLib.

(** [s.toLowerCase()] *)
Definition lower (c : ascii) : ascii :=
  let n := nat_of_ascii c in
  if ((65 <=? n)%nat && (n <=? 90)%nat)
     || ((192 <=? n)%nat && (n <=? 222)%nat && negb (n =? 215)%nat)
  then ascii_of_nat (n + 32) else c.

Fixpoint toLowerCase (s : string) : string :=
  match s with
  | EmptyString => EmptyString
  | String c s' => String (lower c) (toLowerCase s')
  end.

(** [xs.includes(x)] on an array of strings. *)
Definition includes (xs : list string) (x : string) : bool :=
  existsb (String.eqb x) xs.

(** [s.split(sep)[0]] for a one-character separator: the text before
    its first occurrence, or all of [s]. *)
Fixpoint before (sep : ascii) (s : string) : string :=
  match s with
  | EmptyString => EmptyString
  | String c s' => if Ascii.eqb c sep then EmptyString else String c (before sep s')
  end.

(** [new URLSearchParams(search).get(k)]: the first value named [k]. *)
Fixpoint searchParams_get (k : string) (ps : list (string * string))
  : option string :=
  match ps with
  | [] => None
  | (k', v) :: ps' => if String.eqb k' k then Some v else searchParams_get k ps'
  end.

(** [err.message]: an error is identified with its message text; a
    thrown value without one counts as the empty text, which [||]
    treats in the same way. *)
Definition message (err : Error) : option string := Some err.

End JsLib.

(** ** The site header ([components/ui/header.tsx]) *)

Module Header.

(** [/[a-z0-9]/] *)
Definition is_slug_char (c : ascii) : bool :=
  let n := nat_of_ascii c in
  ((97 <=? n)%nat && (n <=? 122)%nat) || ((48 <=? n)%nat && (n <=? 57)%nat).

(** [.replace(/&/g, "and")] *)
Fixpoint replace_ampersand (s : string) : string :=
  match s with
  | EmptyString => EmptyString
  | String c s' =>
      if Ascii.eqb c "&" then String "a" (String "n" (String "d" (replace_ampersand s')))
      else String c (replace_ampersand s')
  end.

(** [.replace(/[^a-z0-9]+/g, "-")]: every maximal run of other
    characters becomes one dash; [in_run] tells that the run the
    current character belongs to has been replaced already. *)
Fixpoint replace_runs (in_run : bool) (s : string) : string :=
  match s with
  | EmptyString => EmptyString
  | String c s' =>
      if is_slug_char c then String c (replace_runs false s')
      else if in_run then replace_runs true s'
      else String "-" (replace_runs true s')
  end.

Definition strip_leading_dash (s : string) : string :=
  match s with
  | String "-" s' => s'
  | _ => s
  end.

Fixpoint strip_trailing_dash (s : string) : string :=
  match s with
  | EmptyString => EmptyString
  | String "-" EmptyString => EmptyString
  | String c s' => String c (strip_trailing_dash s')
  end.

(** [.replace(/^-|-$/g, "")] *)
Definition strip_dashes (s : string) : string :=
  strip_trailing_dash (strip_leading_dash s).

(** The item part of [slug]. *)
Definition slug_item (item : string) : string :=
  strip_dashes (replace_runs false (replace_ampersand (JsLib.toLowerCase item))).

Definition slug (category item : string) : string :=
  "/" +:+ JsLib.toLowerCase category +:+ "/" +:+ slug_item item.

(** An object literal with string-array values, as the list of its
    entries in key order. *)
Definition baseSections : list (string * list string) :=
  [ ("Services", ["Discovery"; "AI Solutions"; "Support"]);
    ("Solutions", ["Browse All"; "Case Studies"]);
    ("Resources", ["Documentation"; "Technical Overview";
                   "Security & Privacy"; "FAQ"]) ].

Definition sections (user : option User) : list (string * list string) :=
  match user with
  | Some user =>
      (baseSections
       ++ [("Dashboard", ["Overview"])]
       ++ (if JsLib.includes (groups user) "DiscoveryAdmin" ||
              JsLib.includes (groups user) "DataWovenAdmin"
           then [("Discovery Tools", ["Sessions"; "Reports"])] else [])
       ++ (if JsLib.includes (groups user) "ImplementationUser" ||
              JsLib.includes (groups user) "DataWovenAdmin"
           then [("Implementation", ["Chat"; "Documents"; "Analytics"])] else []))%list
  | None => baseSections
  end.

(** The links of the navigation: [slug(key, item)] for every item of
    every section. *)
Definition links (user : option User) : list string :=
  flat_map (fun '(key, items) => map (slug key) items) (sections user).

End Header.

(** ** The user menu ([components/UserMenu.tsx]) and the pages that
       only read the session *)

Module UserMenu.



(** The state [handleLogout] acts on: the store and the router. *)
Record state := mkState {
  auth : World;
  pushed : list string             (* [router.push] calls, oldest first *)
}.

(** [await logout(); router.push("/login")] *)
Definition handleLogout (p : Provider) (s : state) : Completion unit * state :=
  match AuthProvider.logout p (auth s) with
  | (Normal _, w) =>
      (Normal tt, {| auth := w; pushed := (pushed s ++ ["/login"])%list |})
  | (Throw e, w) => (Throw e, {| auth := w; pushed := pushed s |})
  end.

End UserMenu.

Module ImplementationPage.

(** [user?.groups.includes("ImplementationUser") ||
     user?.groups.includes("DataWovenAdmin")], as the condition
    [!hasImplementationAccess] reads it. *)
Definition hasImplementationAccess (user : option User) : bool :=
  match user with
  | Some u => JsLib.includes (groups u) "ImplementationUser" ||
              JsLib.includes (groups u) "DataWovenAdmin"
  | None => false
  end.

End ImplementationPage.

Module DashboardPage.

(** The effect on [searchParams]: the message it sets, if any. *)
Definition errorMessage (searchParams : list (string * string)) : option string :=
  match JsLib.searchParams_get "error" searchParams with
  | Some "unauthorized" => Some "You do not have permission to access that page."
  | _ => None
  end.

End DashboardPage.

(** ** Event handlers of the pages

    The same statements as in the store, over the state of the page
    that owns the handler. *)

Module Handler.

Definition t (S A : Type) : Type := S -> Completion A * S.

Definition ret {S A} (a : A) : t S A := fun s => (Normal a, s).

Definition bind {S A B} (m : t S A) (k : A -> t S B) : t S B :=
  fun s =>
    match m s with
    | (Normal a, s') => k a s'
    | (Throw e, s') => (Throw e, s')
    end.

Definition await {S A} (p : Completion A) : t S A := fun s => (p, s).

Definition try_catch {S A} (body : t S A) (handler : Error -> t S A) : t S A :=
  fun s =>
    match body s with
    | (Normal a, s') => (Normal a, s')
    | (Throw e, s') => handler e s'
    end.

Definition try_finally {S A} (body : t S A) (cleanup : t S unit) : t S A :=
  fun s =>
    let '(r, s') := body s in
    match cleanup s' with
    | (Normal _, s'') => (r, s'')
    | (Throw e, s'') => (Throw e, s'')
    end.

Definition modify {S} (f : S -> S) : t S unit := fun s => (Normal tt, f s).

End Handler.

Declare Scope handler_scope.
Notation "'let*' x ':=' m 'in' k" := (Handler.bind m (fun x => k))
  (at level 10, x name, m at level 100, k at level 200) : handler_scope.
Notation "m ';;' k" := (Handler.bind m (fun _ => k))
  (at level 100, k at level 200, right associativity) : handler_scope.

(** ** The login page ([app/(public)/login/page.tsx]) *)

Module LoginPage.

Import Handler.
Local Open Scope handler_scope.

Record state := mkState {
  auth : World;                           (* the store behind [useAuth()] *)
  search : list (string * string);        (* [window.location.search] *)
  pushed : list string;                   (* [router.push] calls, oldest first *)
  email : string;
  password : string;
  newPassword : string;
  confirmPassword : string;
  error : string;
  loading : bool;
  needsPasswordChange : bool
}.

Definition setError (e : string) : t state unit :=
  modify (fun s =>
    {| auth := auth s; search := search s; pushed := pushed s;
       email := email s; password := password s;
       newPassword := newPassword s; confirmPassword := confirmPassword s;
       error := e; loading := loading s;
       needsPasswordChange := needsPasswordChange s |}).

Definition setLoading (b : bool) : t state unit :=
  modify (fun s =>
    {| auth := auth s; search := search s; pushed := pushed s;
       email := email s; password := password s;
       newPassword := newPassword s; confirmPassword := confirmPassword s;
       error := error s; loading := b;
       needsPasswordChange := needsPasswordChange s |}).

Definition setNeedsPasswordChange (b : bool) : t state unit :=
  modify (fun s =>
    {| auth := auth s; search := search s; pushed := pushed s;
       email := email s; password := password s;
       newPassword := newPassword s; confirmPassword := confirmPassword s;
       error := error s; loading := loading s;
       needsPasswordChange := b |}).

Definition router_push (path : string) : t state unit :=
  modify (fun s =>
    {| auth := auth s; search := search s;
       pushed := (pushed s ++ [path])%list;
       email := email s; password := password s;
       newPassword := newPassword s; confirmPassword := confirmPassword s;
       error := error s; loading := loading s;
       needsPasswordChange := needsPasswordChange s |}).

(** A store operation, run on the store of the page. *)
Definition on_store {A} (m : Async.t A) : t state A :=
  fun s =>
    let '(r, w) := m (auth s) in
    (r, {| auth := w; search := search s; pushed := pushed s;
           email := email s; password := password s;
           newPassword := newPassword s; confirmPassword := confirmPassword s;
           error := error s; loading := loading s;
           needsPasswordChange := needsPasswordChange s |}).

Definition console_error (label : string) (err : Error) : t state unit :=
  on_store (Async.log (LogError label err)).

(** [router.push(searchParams.get("redirect") || "/dashboard")] *)
Definition push_redirect : t state unit :=
  fun s =>
    let redirect :=
      Js.or_else (JsLib.searchParams_get "redirect" (search s)) "/dashboard" in
    router_push redirect s.

Definition handleSubmit (p : Provider) : t state unit :=
  fun s0 =>
    (setError "" ;;
     setLoading true ;;
     try_finally
       (try_catch
          (let* result := on_store (AuthProvider.login p (email s0) (password s0)) in
           if String.eqb (Amplify.signInStep result)
                "CONFIRM_SIGN_IN_WITH_NEW_PASSWORD_REQUIRED"
           then setNeedsPasswordChange true
           else if Amplify.isSignedIn result then
             on_store (AuthProvider.refreshUser p) ;;
             push_redirect
           else ret tt)
          (fun err =>
             console_error "Login error:" err ;;
             setError (Js.or_else (JsLib.message err)
                         "Failed to sign in. Please check your credentials.")))
       (setLoading false)) s0.

(** [confirmSignIn] receives the challenge response and the [name]
    attribute, and resolves or rejects. *)
Definition handlePasswordChange
    (confirmSignIn : string -> string -> Completion unit) (p : Provider)
  : t state unit :=
  fun s0 =>
    (setError "" ;;
     if negb (String.eqb (newPassword s0) (confirmPassword s0)) then
       setError "Passwords do not match"
     else if (String.length (newPassword s0) <? 12)%nat then
       setError "Password must be at least 12 characters"
     else
       setLoading true ;;
       try_finally
         (try_catch
            (await (confirmSignIn (newPassword s0) (JsLib.before "@" (email s0))) ;;
             on_store (AuthProvider.refreshUser p) ;;
             push_redirect)
            (fun err =>
               console_error "Password change error:" err ;;
               setError (Js.or_else (JsLib.message err)
                           "Failed to change password")))
         (setLoading false)) s0.

End LoginPage.

(** ** The reset-password page ([app/(public)/reset-password/page.tsx]) *)

Module ResetPasswordPage.

Import Handler.
Local Open Scope handler_scope.

Record state := mkState {
  email : string;
  code : string;
  newPassword : string;
  confirmPassword : string;
  loading : bool;
  error : string;
  success : bool;
  timeouts : list (nat * string);  (* [setTimeout(() => router.push(path), ms)] *)
  console : list Logged
}.

Definition setError (e : string) : t state unit :=
  modify (fun s =>
    {| email := email s; code := code s; newPassword := newPassword s;
       confirmPassword := confirmPassword s; loading := loading s;
       error := e; success := success s; timeouts := timeouts s;
       console := console s |}).

Definition setLoading (b : bool) : t state unit :=
  modify (fun s =>
    {| email := email s; code := code s; newPassword := newPassword s;
       confirmPassword := confirmPassword s; loading := b;
       error := error s; success := success s; timeouts := timeouts s;
       console := console s |}).

Definition setSuccess (b : bool) : t state unit :=
  modify (fun s =>
    {| email := email s; code := code s; newPassword := newPassword s;
       confirmPassword := confirmPassword s; loading := loading s;
       error := error s; success := b; timeouts := timeouts s;
       console := console s |}).

Definition setTimeout_push (path : string) (ms : nat) : t state unit :=
  modify (fun s =>
    {| email := email s; code := code s; newPassword := newPassword s;
       confirmPassword := confirmPassword s; loading := loading s;
       error := error s; success := success s;
       timeouts := (timeouts s ++ [(ms, path)])%list;
       console := console s |}).

Definition console_error (label : string) (err : Error) : t state unit :=
  modify (fun s =>
    {| email := email s; code := code s; newPassword := newPassword s;
       confirmPassword := confirmPassword s; loading := loading s;
       error := error s; success := success s; timeouts := timeouts s;
       console := (console s ++ [LogError label err])%list |}).

(** [confirmResetPassword] receives user name, confirmation code and
    new password. *)
Definition handleSubmit
    (confirmResetPassword : string -> string -> string -> Completion unit)
  : t state unit :=
  fun s0 =>
    (setError "" ;;
     if negb (String.eqb (newPassword s0) (confirmPassword s0)) then
       setError "Passwords do not match"
     else if (String.length (newPassword s0) <? 12)%nat then
       setError "Password must be at least 12 characters"
     else
       setLoading true ;;
       try_finally
         (try_catch
            (await (confirmResetPassword (email s0) (code s0) (newPassword s0)) ;;
             setSuccess true ;;
             setTimeout_push "/login" 2000)
            (fun err =>
               console_error "Confirm reset password error:" err ;;
               setError (Js.or_else (JsLib.message err)
                  "Failed to reset password. Please check your code and try again.")))
         (setLoading false)) s0.

End ResetPasswordPage.

(** ** The forgot-password page ([app/(public)/forgot-password/page.tsx]) *)

Module ForgotPasswordPage.

Import Handler.
Local Open Scope handler_scope.

Record state := mkState {
  email : string;
  loading : bool;
  error : string;
  success : bool;
  console : list Logged
}.

Definition setError (e : string) : t state unit :=
  modify (fun s =>
    {| email := email s; loading := loading s; error := e;
       success := success s; console := console s |}).

Definition setLoading (b : bool) : t state unit :=
  modify (fun s =>
    {| email := email s; loading := b; error := error s;
       success := success s; console := console s |}).

Definition setSuccess (b : bool) : t state unit :=
  modify (fun s =>
    {| email := email s; loading := loading s; error := error s;
       success := b; console := console s |}).

Definition console_error (label : string) (err : Error) : t state unit :=
  modify (fun s =>
    {| email := email s; loading := loading s; error := error s;
       success := success s;
       console := (console s ++ [LogError label err])%list |}).

Definition handleSubmit (resetPassword : string -> Completion unit)
  : t state unit :=
  fun s0 =>
    (setError "" ;;
     setLoading true ;;
     try_finally
       (try_catch
          (await (resetPassword (email s0)) ;;
           setSuccess true)
          (fun err =>
             console_error "Reset password error:" err ;;
             setError (Js.or_else (JsLib.message err)
                         "Failed to send reset code. Please try again.")))
       (setLoading false)) s0.

End ForgotPasswordPage.

(** ** More vocabulary *)

(** The request the browser makes when it follows a redirect to [u]:
    the new URL with the cookies it sent before. *)
Definition follow (request : NextRequest) (u : URL) : NextRequest :=
  {| url := u; cookies := cookies request |}.

(** One of the three cookie names of the bridge. *)
Definition bridge_cookie (k : string) : bool :=
  String.eqb k ACCESS_TOKEN_COOKIE || String.eqb k ID_TOKEN_COOKIE ||
  String.eqb k USER_GROUP_COOKIE.

(** Every character of [s] is one of [a]-[z], [0]-[9] and the dash,
    and no dash follows a dash; with [after_dash], [s] does not start
    with a dash either. *)
Fixpoint dashes_apart (after_dash : bool) (s : string) : bool :=
  match s with
  | EmptyString => true
  | String c s' =>
      if Header.is_slug_char c then dashes_apart false s'
      else if Ascii.eqb c "-" then negb after_dash && dashes_apart true s'
      else false
  end.

Fixpoint ends_with_dash (s : string) : bool :=
  match s with
  | EmptyString => false
  | String c EmptyString => Ascii.eqb c "-"
  | String _ s' => ends_with_dash s'
  end.

(** The shape of a path segment: lower-case letters, digits and single
    dashes, with no dash at either end. *)
Definition slug_shape (s : string) : bool :=
  dashes_apart true s && negb (ends_with_dash s).

(** The page with another error text and everything else as it is. *)
Definition with_error (s : LoginPage.state) (e : string) : LoginPage.state :=
  {| LoginPage.auth := LoginPage.auth s;
     LoginPage.search := LoginPage.search s;
     LoginPage.pushed := LoginPage.pushed s;
     LoginPage.email := LoginPage.email s;
     LoginPage.password := LoginPage.password s;
     LoginPage.newPassword := LoginPage.newPassword s;
     LoginPage.confirmPassword := LoginPage.confirmPassword s;
     LoginPage.error := e;
     LoginPage.loading := LoginPage.loading s;
     LoginPage.needsPasswordChange := LoginPage.needsPasswordChange s |}.

(** The reset page with another error text and everything else as it is. *)
Definition reset_with_error (s : ResetPasswordPage.state) (e : string)
  : ResetPasswordPage.state :=
  {| ResetPasswordPage.email := ResetPasswordPage.email s;
     ResetPasswordPage.code := ResetPasswordPage.code s;
     ResetPasswordPage.newPassword := ResetPasswordPage.newPassword s;
     ResetPasswordPage.confirmPassword := ResetPasswordPage.confirmPassword s;
     ResetPasswordPage.loading := ResetPasswordPage.loading s;
     ResetPasswordPage.error := e;
     ResetPasswordPage.success := ResetPasswordPage.success s;
     ResetPasswordPage.timeouts := ResetPasswordPage.timeouts s;
     ResetPasswordPage.console := ResetPasswordPage.console s |}.

(** ** More sample data *)

(** Every call resolves, but the session carries no tokens. *)
Definition provider_without_tokens : Provider :=
  {| getCurrentUser := Normal ann;
     fetchAuthSession := Normal {| Amplify.tokens := None |};
     fetchUserAttributes := Normal ∅;
     signIn := fun _ _ => Throw "NetworkError";
     signOut := Normal tt |}.

(** The login form, filled in, on a page reached with the query [search]. *)
Definition login_form (search : list (string * string)) : LoginPage.state :=
  {| LoginPage.auth := initial;
     LoginPage.search := search;
     LoginPage.pushed := [];
     LoginPage.email := "ann@datawoven.example";
     LoginPage.password := "correct horse battery staple";
     LoginPage.newPassword := "";
     LoginPage.confirmPassword := "";
     LoginPage.error := "";
     LoginPage.loading := false;
     LoginPage.needsPasswordChange := false |}.

(** Sign-in answers with the new-password challenge. *)
Definition provider_challenging : Provider :=
  {| getCurrentUser := Normal ann;
     fetchAuthSession :=
       Normal {| Amplify.tokens := tokens_with_groups (Some ["DataWovenAdmin"]) |};
     fetchUserAttributes := Normal ∅;
     signIn := fun _ _ =>
       Normal {| Amplify.isSignedIn := true;
                 Amplify.signInStep := "CONFIRM_SIGN_IN_WITH_NEW_PASSWORD_REQUIRED" |};
     signOut := Normal tt |}.
(** * Properties *)

(** ** The cookie jar on the strings the bridge writes *)

Example parse_set_ex :
  Cookie.parse "CognitoIdentityServiceProvider.userGroup=none; path=/; max-age=3600; SameSite=Lax"
  = Some (Cookie.mkSetCookie "CognitoIdentityServiceProvider.userGroup" "none" false).
Proof. vm_compute. reflexivity. Qed.

Example parse_clear_ex :
  Cookie.parse "CognitoIdentityServiceProvider.idToken=; path=/; expires=Thu, 01 Jan 1970 00:00:00 GMT"
  = Some (Cookie.mkSetCookie "CognitoIdentityServiceProvider.idToken" "" true).
Proof. vm_compute. reflexivity. Qed.

(** ** JavaScript strings *)

Lemma startsWith_app (p r : string) : Js.startsWith (p +:+ r) p = true.
Proof.
  induction p as [|c p IH]; simpl; [reflexivity|].
  rewrite Ascii.eqb_refl. exact IH.
Qed.

Lemma startsWith_inv (s p : string) :
  Js.startsWith s p = true -> exists r, s = p +:+ r.
Proof.
  revert s. induction p as [|c p IH]; intros s H; simpl in *.
  - exists s. reflexivity.
  - destruct s as [|d s]; [discriminate|].
    apply andb_true_iff in H as [Hc Hs].
    apply Ascii.eqb_eq in Hc. subst d.
    destruct (IH _ Hs) as [r ->]. exists r. reflexivity.
Qed.

Lemma strict_neq_true (a b : option string) :
  a <> b -> Js.strict_neq a b = true.
Proof.
  destruct a as [x|], b as [y|]; simpl; intros H; try reflexivity.
  - destruct (String.eqb_spec x y); [congruence|reflexivity].
  - congruence.
Qed.

(** ** The route guard *)

Section RouteGuardFacts.

Import RouteGuard.

Variable request : NextRequest.
Let path := pathname (url request).
Let host := origin (url request).

Lemma isAuthenticated_true :
  is_Some (cookies request !! ACCESS_TOKEN_COOKIE) ->
  is_Some (cookies request !! ID_TOKEN_COOKIE) ->
  isAuthenticated request = true.
Proof.
  intros [a Ha] [i Hi]. unfold isAuthenticated. rewrite Ha, Hi. reflexivity.
Qed.

Lemma isAuthenticated_false :
  cookies request !! ACCESS_TOKEN_COOKIE = None \/
  cookies request !! ID_TOKEN_COOKIE = None ->
  isAuthenticated request = false.
Proof.
  unfold isAuthenticated. intros [H|H]; rewrite H.
  - reflexivity.
  - destruct (cookies request !! ACCESS_TOKEN_COOKIE); reflexivity.
Qed.

Lemma protected_prefix_route (prefix : string) :
  In prefix ["/dashboard"; "/discovery"; "/implementation"; "/account"; "/admin"] ->
  Js.startsWith path prefix = true ->
  isAuthenticatedRoute path = true.
Proof.
  intros Hin Hs. unfold isAuthenticatedRoute.
  destruct Hin as [<-|[<-|[<-|[<-|[<-|[]]]]]]; rewrite Hs;
    rewrite ?orb_true_r; reflexivity.
Qed.

(** Rule 1 of the decision table. *)
Lemma middleware_unauthenticated :
  isAuthenticatedRoute path = true ->
  isAuthenticated request = false ->
  middleware request =
    Redirect {| origin := host; pathname := "/login";
                searchParams := [("redirect", path)] |}.
Proof.
  intros Hr Ha. unfold middleware. fold path. rewrite Hr, Ha. reflexivity.
Qed.

(** Rule 2 of the decision table. *)
Lemma middleware_not_admin :
  isAdminRoute path = true ->
  isAuthenticated request = true ->
  cookies request !! USER_GROUP_COOKIE <> Some "DataWovenAdmin" ->
  middleware request =
    Redirect {| origin := host; pathname := "/dashboard";
                searchParams := [("error", "unauthorized")] |}.
Proof.
  intros Hr Ha Hg. unfold middleware. fold path.
  rewrite Ha, Hr, (strict_neq_true _ _ Hg), andb_false_r. reflexivity.
Qed.

End RouteGuardFacts.

(** C1. For every request whose path starts with one of the protected
    prefixes [/dashboard], [/discovery], [/implementation], [/account],
    [/admin] and which carries neither the access-token nor the id-token
    cookie, the route guard answers with a redirect to [/login] whose
    query is [redirect=<path>]; it does not answer [Next]. *)
Theorem C1_protected_without_tokens_redirects_to_login
    (request : NextRequest) (prefix : string) :
  In prefix ["/dashboard"; "/discovery"; "/implementation"; "/account"; "/admin"] ->
  Js.startsWith (pathname (url request)) prefix = true ->
  cookies request !! ACCESS_TOKEN_COOKIE = None ->
  cookies request !! ID_TOKEN_COOKIE = None ->
  RouteGuard.middleware request =
    Redirect {| origin := origin (url request); pathname := "/login";
                searchParams := [("redirect", pathname (url request))] |}
  /\ RouteGuard.middleware request <> Next.
Proof.
  intros Hin Hp Ha Hi.
  assert (RouteGuard.middleware request =
    Redirect {| origin := origin (url request); pathname := "/login";
                searchParams := [("redirect", pathname (url request))] |}) as E.
  { apply middleware_unauthenticated.
    - eapply protected_prefix_route; eassumption.
    - apply isAuthenticated_false. left. exact Ha. }
  split; [exact E|]. rewrite E. discriminate.
Qed.

Lemma C1_witness :
  RouteGuard.middleware
    (request_for "https://datawoven.example" "/account/billing" ∅) =
  Redirect {| origin := "https://datawoven.example"; pathname := "/login";
              searchParams := [("redirect", "/account/billing")] |}
  /\ RouteGuard.middleware
       (request_for "https://datawoven.example" "/account/billing" ∅) <> Next.
Proof.
  apply (C1_protected_without_tokens_redirects_to_login
           (request_for "https://datawoven.example" "/account/billing" ∅)
           "/account").
  - simpl. tauto.
  - reflexivity.
  - reflexivity.
  - reflexivity.
Defined.

(** C2. For every request whose path starts with [/admin], which
    carries both token cookies and whose [userGroup] cookie is anything
    but exactly ["DataWovenAdmin"] (another value, a value differing in
    case only, or no cookie at all), the route guard answers with a
    redirect to [/dashboard] whose query is [error=unauthorized],
    whatever the rest of the path is. *)
Theorem C2_admin_route_other_group_redirects_to_dashboard
    (request : NextRequest) :
  Js.startsWith (pathname (url request)) "/admin" = true ->
  is_Some (cookies request !! ACCESS_TOKEN_COOKIE) ->
  is_Some (cookies request !! ID_TOKEN_COOKIE) ->
  cookies request !! USER_GROUP_COOKIE <> Some "DataWovenAdmin" ->
  RouteGuard.middleware request =
    Redirect {| origin := origin (url request); pathname := "/dashboard";
                searchParams := [("error", "unauthorized")] |}.
Proof.
  intros Hp Ha Hi Hg.
  apply middleware_not_admin; [exact Hp| |exact Hg].
  apply isAuthenticated_true; assumption.
Qed.

Lemma C2_witness :
  RouteGuard.middleware
    (request_for "https://datawoven.example" "/admin/provisioning"
       lowercase_admin_jar) =
  Redirect {| origin := "https://datawoven.example"; pathname := "/dashboard";
              searchParams := [("error", "unauthorized")] |}.
Proof.
  apply (C2_admin_route_other_group_redirects_to_dashboard
           (request_for "https://datawoven.example" "/admin/provisioning"
              lowercase_admin_jar)).
  - reflexivity.
  - vm_compute. eauto.
  - vm_compute. eauto.
  - vm_compute. discriminate.
Defined.

(** C7. A request for [/login] that carries both token cookies is
    redirected to [/dashboard] (without query); a request for [/login]
    that lacks at least one of the two is let through. *)
Theorem C7_login_page_gate (request : NextRequest) :
  pathname (url request) = "/login" ->
  (is_Some (cookies request !! ACCESS_TOKEN_COOKIE) ->
   is_Some (cookies request !! ID_TOKEN_COOKIE) ->
   RouteGuard.middleware request =
     Redirect {| origin := origin (url request); pathname := "/dashboard";
                 searchParams := [] |})
  /\ (cookies request !! ACCESS_TOKEN_COOKIE = None \/
      cookies request !! ID_TOKEN_COOKIE = None ->
      RouteGuard.middleware request = Next).
Proof.
  intros Hp. split.
  - intros Ha Hi. unfold RouteGuard.middleware.
    rewrite (isAuthenticated_true _ Ha Hi), Hp. reflexivity.
  - intros H. unfold RouteGuard.middleware.
    rewrite (isAuthenticated_false _ H), Hp. reflexivity.
Qed.

Lemma C7_witness :
  RouteGuard.middleware
    (request_for "https://datawoven.example" "/login" lowercase_admin_jar) =
  Redirect {| origin := "https://datawoven.example"; pathname := "/dashboard";
              searchParams := [] |}
  /\ RouteGuard.middleware
       (request_for "https://datawoven.example" "/login"
          (<[ACCESS_TOKEN_COOKIE := "acc"]> ∅)) = Next.
Proof.
  split.
  - apply (C7_login_page_gate
             (request_for "https://datawoven.example" "/login"
                lowercase_admin_jar)).
    + reflexivity.
    + vm_compute. eauto.
    + vm_compute. eauto.
  - apply (C7_login_page_gate
             (request_for "https://datawoven.example" "/login"
                (<[ACCESS_TOKEN_COOKIE := "acc"]> ∅))).
    + reflexivity.
    + right. vm_compute. reflexivity.
Defined.

(** C9. The route guard is a total function of the request alone, and
    its decision depends on nothing but the path, the presence of the
    two token cookies and the value of the [userGroup] cookie: two
    requests agreeing on these receive the same decision (the same
    response when they also share the origin); and every decision is
    one of the four outcomes of the table, [Continue] or a redirect. *)
Theorem C9_route_guard_is_a_function_of_path_and_cookies :
  (forall r1 r2 : NextRequest,
     pathname (url r1) = pathname (url r2) ->
     (is_Some (cookies r1 !! ACCESS_TOKEN_COOKIE) <->
      is_Some (cookies r2 !! ACCESS_TOKEN_COOKIE)) ->
     (is_Some (cookies r1 !! ID_TOKEN_COOKIE) <->
      is_Some (cookies r2 !! ID_TOKEN_COOKIE)) ->
     cookies r1 !! USER_GROUP_COOKIE = cookies r2 !! USER_GROUP_COOKIE ->
     decision (RouteGuard.middleware r1) = decision (RouteGuard.middleware r2)
     /\ (origin (url r1) = origin (url r2) ->
         RouteGuard.middleware r1 = RouteGuard.middleware r2))
  /\ (forall r : NextRequest,
        In (decision (RouteGuard.middleware r))
           [ Continue;
             RedirectTo "/login" [("redirect", pathname (url r))];
             RedirectTo "/dashboard" [("error", "unauthorized")];
             RedirectTo "/dashboard" [] ]).
Proof.
  split.
  - intros r1 r2 Hp Ha Hi Hg.
    assert (RouteGuard.isAuthenticated r1 = RouteGuard.isAuthenticated r2) as Hauth.
    { unfold RouteGuard.isAuthenticated.
      destruct (cookies r1 !! ACCESS_TOKEN_COOKIE) as [a1|] eqn:E1,
               (cookies r2 !! ACCESS_TOKEN_COOKIE) as [a2|] eqn:E2,
               (cookies r1 !! ID_TOKEN_COOKIE) as [i1|] eqn:E3,
               (cookies r2 !! ID_TOKEN_COOKIE) as [i2|] eqn:E4;
        try reflexivity; exfalso;
        repeat match goal with
               | H : is_Some (Some _) <-> is_Some None |- _ =>
                   destruct H as [H _]; destruct H as [? ?]; eauto; discriminate
               | H : is_Some None <-> is_Some (Some _) |- _ =>
                   destruct H as [_ H]; destruct H as [? ?]; eauto; discriminate
               end. }
    unfold RouteGuard.middleware. rewrite Hp, Hauth, Hg.
    split.
    + repeat match goal with |- context [if ?b then _ else _] => destruct b end;
        reflexivity.
    + intros Ho.
      repeat match goal with |- context [if ?b then _ else _] => destruct b end;
        try reflexivity; unfold URL_set_param, URL_new; simpl; rewrite Ho;
        reflexivity.
  - intros r. unfold RouteGuard.middleware.
    repeat match goal with |- context [if ?b then _ else _] => destruct b end;
      simpl; tauto.
Qed.

Lemma C9_witness :
  decision (RouteGuard.middleware
    (request_for "https://datawoven.example" "/admin" lowercase_admin_jar)) =
  decision (RouteGuard.middleware
    (request_for "https://staging.datawoven.example" "/admin"
       (<[USER_GROUP_COOKIE := "datawovenadmin"]>
          (<[ID_TOKEN_COOKIE := "other-id"]>
             (<[ACCESS_TOKEN_COOKIE := "other-access"]> ∅))))).
Proof.
  apply (proj1 C9_route_guard_is_a_function_of_path_and_cookies).
  - reflexivity.
  - split; intros _; vm_compute; eauto.
  - split; intros _; vm_compute; eauto.
  - vm_compute. reflexivity.
Defined.

(** ** Reading set-cookie-strings *)

Section CookieFacts.

Import Cookie.

Lemma append_nil (r : string) : "" +:+ r = r.
Proof. reflexivity. Qed.

Lemma append_cons (c : ascii) (s r : string) :
  String c s +:+ r = String c (s +:+ r).
Proof. reflexivity. Qed.

Lemma append_assoc (a b c : string) : a +:+ (b +:+ c) = (a +:+ b) +:+ c.
Proof.
  induction a as [|x a IH]; [reflexivity|].
  rewrite !append_cons. now rewrite IH.
Qed.

Lemma split_on_nonempty (c : ascii) (s : string) : split_on c s <> [].
Proof.
  destruct s as [|d s]; simpl; [discriminate|].
  destruct (Ascii.eqb d c); [discriminate|].
  destruct (split_on c s); discriminate.
Qed.

Lemma split_on_app (c : ascii) (t r : string) :
  split_on c (t +:+ String c r) = (split_on c t ++ split_on c r)%list.
Proof.
  induction t as [|d t IH]; [rewrite append_nil|rewrite append_cons]; simpl.
  - rewrite Ascii.eqb_refl. reflexivity.
  - destruct (Ascii.eqb d c); rewrite IH; [reflexivity|].
    pose proof (split_on_nonempty c t) as Hne.
    destruct (split_on c t) as [|h tl]; [congruence|reflexivity].
Qed.

Lemma split_on_absent (c : ascii) (s : string) :
  occurs c s = false -> split_on c s = [s].
Proof.
  induction s as [|d s IH]; simpl; [reflexivity|].
  intros H. apply orb_false_iff in H as [Hd Hs].
  rewrite Hd, (IH Hs). reflexivity.
Qed.

Lemma split_on_prefix (c : ascii) (p x : string) :
  occurs c p = false ->
  split_on c (p +:+ x) =
    match split_on c x with
    | h :: tl => (p +:+ h) :: tl
    | [] => [p]
    end.
Proof.
  induction p as [|d p IH]; [rewrite append_nil|rewrite append_cons];
    simpl; intros H.
  - destruct (split_on c x) eqn:E; [|reflexivity].
    now apply split_on_nonempty in E.
  - apply orb_false_iff in H as [Hd Hp]. rewrite Hd, (IH Hp).
    pose proof (split_on_nonempty c x) as Hne.
    destruct (split_on c x); [congruence|reflexivity].
Qed.

Lemma cut_app (c : ascii) (n v : string) :
  occurs c n = false -> cut c (n +:+ String c v) = Some (n, v).
Proof.
  induction n as [|d n IH]; [rewrite append_nil|rewrite append_cons];
    simpl; intros H.
  - now rewrite Ascii.eqb_refl.
  - apply orb_false_iff in H as [Hd Hn]. now rewrite Hd, (IH Hn).
Qed.

(** Whatever attributes precede it, a trailing
    [; path=/; max-age=3600; SameSite=Lax] keeps the cookie alive. *)
Lemma expired_max_age_3600 (before : list string) :
  expired (map parse_attribute
             (before ++ [" path=/"; " max-age=3600"; " SameSite=Lax"])%list) = false.
Proof.
  unfold expired, last_max_age.
  rewrite map_app, fold_left_app.
  change (map parse_attribute [" path=/"; " max-age=3600"; " SameSite=Lax"])
    with [OtherAttribute; MaxAge 3600; OtherAttribute].
  reflexivity.
Qed.

Lemma parse_written (name v : string) :
  literal_name name = true ->
  exists value,
    parse (name +:+ "=" +:+ v +:+ "; path=/; max-age=3600; SameSite=Lax") =
      Some {| sc_name := name; sc_value := value; sc_expired := false |}
    /\ (plain v = true -> value = v).
Proof.
  unfold literal_name. intros H.
  repeat (apply andb_true_iff in H as [H ?]).
  apply negb_true_iff in H. 
  repeat match goal with
         | X : negb _ = true |- _ => apply negb_true_iff in X
         | X : String.eqb _ _ = true |- _ => apply String.eqb_eq in X
         end.
  pose proof (split_on_nonempty ";" v) as Hne.
  destruct (split_on ";" v) as [|h tl] eqn:Ev; [congruence|].
  exists (trim h). split.
  - unfold parse.
    change (name +:+ "=" +:+ v +:+ "; path=/; max-age=3600; SameSite=Lax")
      with (name +:+ (String "=" v +:+ String ";" " path=/; max-age=3600; SameSite=Lax")).
    rewrite append_assoc, split_on_app, split_on_prefix by assumption.
    simpl (split_on ";" (String "=" v)). rewrite Ev.
    change (split_on ";" " path=/; max-age=3600; SameSite=Lax")
      with [" path=/"; " max-age=3600"; " SameSite=Lax"].
    simpl app. cbv beta iota.
    rewrite cut_app by assumption.
    match goal with X : trim name = name |- _ => rewrite X end.
    match goal with X : String.eqb name "" = false |- _ => rewrite X end.
    rewrite expired_max_age_3600. reflexivity.
  - unfold plain. intros Hv. apply andb_true_iff in Hv as [Hs Ht].
    apply negb_true_iff in Hs. apply String.eqb_eq in Ht.
    rewrite (split_on_absent _ _ Hs) in Ev. injection Ev as <- _. exact Ht.
Qed.

Lemma assign_written (name v : string) (jar : gmap string string) :
  literal_name name = true ->
  exists value,
    assign (name +:+ "=" +:+ v +:+ "; path=/; max-age=3600; SameSite=Lax") jar =
      <[name := value]> jar
    /\ (plain v = true -> value = v).
Proof.
  intros Hn. destruct (parse_written name v Hn) as (value & Hp & Hv).
  exists value. split; [|exact Hv].
  unfold assign. rewrite Hp. reflexivity.
Qed.

Lemma assign_epoch (name : string) (jar : gmap string string) :
  literal_name name = true ->
  assign (name +:+ "=; path=/; expires=Thu, 01 Jan 1970 00:00:00 GMT") jar =
    delete name jar.
Proof.
  unfold literal_name. intros H.
  repeat (apply andb_true_iff in H as [H ?]).
  apply negb_true_iff in H.
  repeat match goal with
         | X : negb _ = true |- _ => apply negb_true_iff in X
         | X : String.eqb _ _ = true |- _ => apply String.eqb_eq in X
         end.
  unfold assign, parse.
  change (name +:+ "=; path=/; expires=Thu, 01 Jan 1970 00:00:00 GMT")
    with (name +:+ (String "=" "" +:+ String ";" " path=/; expires=Thu, 01 Jan 1970 00:00:00 GMT")).
  rewrite append_assoc, split_on_app, split_on_prefix by assumption.
  simpl (split_on ";" (String "=" "")).
  change (split_on ";" " path=/; expires=Thu, 01 Jan 1970 00:00:00 GMT")
    with [" path=/"; " expires=Thu, 01 Jan 1970 00:00:00 GMT"].
  simpl app. cbv beta iota.
  rewrite cut_app by assumption.
  match goal with X : trim name = name |- _ => rewrite X end.
  match goal with X : String.eqb name "" = false |- _ => rewrite X end.
  reflexivity.
Qed.

End CookieFacts.

(** ** The cookie bridge *)

Section CookieBridgeFacts.

Import CookieBridge.

Variable tokens : option Amplify.AuthTokens.

Let accessToken := option_map Amplify.toString (Js.opt tokens Amplify.accessToken).
Let idToken := option_map Amplify.toString (Js.opt tokens Amplify.idToken).

(** With both tokens at hand the bridge stores all three cookies under
    their literal names, whatever the token strings contain. *)
Lemma setAuthCookies_written (jar : gmap string string) :
  Js.truthy accessToken = true ->
  Js.truthy idToken = true ->
  exists va vi vg,
    setAuthCookies tokens (Some jar) =
      Some (<[USER_GROUP_COOKIE := vg]>
              (<[ID_TOKEN_COOKIE := vi]> (<[ACCESS_TOKEN_COOKIE := va]> jar)))
    /\ (plain (primaryGroupOf tokens) = true -> vg = primaryGroupOf tokens).
Proof.
  intros Ha Hi. unfold setAuthCookies. fold accessToken idToken.
  rewrite Ha, Hi. cbv beta iota zeta. simpl andb. cbv iota.
  destruct (assign_written ACCESS_TOKEN_COOKIE (template accessToken) jar eq_refl)
    as (va & Ea & _).
  destruct (assign_written ID_TOKEN_COOKIE (template idToken)
              (<[ACCESS_TOKEN_COOKIE := va]> jar) eq_refl) as (vi & Ei & _).
  destruct (assign_written USER_GROUP_COOKIE (primaryGroupOf tokens)
              (<[ID_TOKEN_COOKIE := vi]> (<[ACCESS_TOKEN_COOKIE := va]> jar))
              eq_refl) as (vg & Eg & Hg).
  exists va, vi, vg. split; [|exact Hg].
  change ("CognitoIdentityServiceProvider.accessToken=" +:+ template accessToken
            +:+ "; path=/; max-age=3600; SameSite=Lax")
    with (ACCESS_TOKEN_COOKIE +:+ "=" +:+ template accessToken
            +:+ "; path=/; max-age=3600; SameSite=Lax").
  rewrite Ea.
  change ("CognitoIdentityServiceProvider.idToken=" +:+ template idToken
            +:+ "; path=/; max-age=3600; SameSite=Lax")
    with (ID_TOKEN_COOKIE +:+ "=" +:+ template idToken
            +:+ "; path=/; max-age=3600; SameSite=Lax").
  rewrite Ei.
  change ("CognitoIdentityServiceProvider.userGroup=" +:+ primaryGroupOf tokens
            +:+ "; path=/; max-age=3600; SameSite=Lax")
    with (USER_GROUP_COOKIE +:+ "=" +:+ primaryGroupOf tokens
            +:+ "; path=/; max-age=3600; SameSite=Lax").
  rewrite Eg. reflexivity.
Qed.

(** After such a write the route guard sees an authenticated request. *)
Lemma setAuthCookies_authenticates (jar : gmap string string) (host path : string) :
  Js.truthy accessToken = true ->
  Js.truthy idToken = true ->
  exists jar',
    setAuthCookies tokens (Some jar) = Some jar' /\
    RouteGuard.isAuthenticated (request_for host path jar') = true.
Proof.
  intros Ha Hi.
  destruct (setAuthCookies_written jar Ha Hi) as (va & vi & vg & E & _).
  eexists. split; [exact E|].
  apply isAuthenticated_true; simpl.
  - exists va. rewrite lookup_insert_ne by discriminate.
    rewrite lookup_insert_ne by discriminate. apply lookup_insert_eq.
  - exists vi. rewrite lookup_insert_ne by discriminate.
    apply lookup_insert_eq.
Qed.

End CookieBridgeFacts.

Lemma clearAuthCookies_deletes (jar : gmap string string) :
  CookieBridge.clearAuthCookies (Some jar) =
    Some (delete USER_GROUP_COOKIE
            (delete ID_TOKEN_COOKIE (delete ACCESS_TOKEN_COOKIE jar))).
Proof.
  unfold CookieBridge.clearAuthCookies. cbv zeta.
  rewrite <- (assign_epoch ACCESS_TOKEN_COOKIE jar eq_refl).
  rewrite <- (assign_epoch ID_TOKEN_COOKIE _ eq_refl).
  rewrite <- (assign_epoch USER_GROUP_COOKIE _ eq_refl).
  reflexivity.
Qed.

(** C8, as stated, fails: with both tokens present and the group
    sequence [[""; "DataWovenAdmin"]], the [userGroup] cookie receives
    ["none"], which is not the first element of the sequence. *)
Lemma C8_counterexample_empty_first_group :
  let tokens := tokens_with_groups (Some [""; "DataWovenAdmin"]) in
  Js.truthy (option_map Amplify.toString (Js.opt tokens Amplify.accessToken)) = true
  /\ Js.truthy (option_map Amplify.toString (Js.opt tokens Amplify.idToken)) = true
  /\ head (CookieBridge.groupsOf tokens) = Some ""
  /\ option_map (fun jar : gmap string string => jar !! USER_GROUP_COOKIE)
       (CookieBridge.setAuthCookies tokens (Some ∅)) = Some (Some "none")
  /\ option_map (fun jar : gmap string string => jar !! USER_GROUP_COOKIE)
       (CookieBridge.setAuthCookies tokens (Some ∅)) <> Some (Some "").
Proof.
  cbv zeta. repeat split; try (vm_compute; reflexivity).
  vm_compute. discriminate.
Qed.

(** A first group with a semicolon reaches the jar cut short, one with
    blanks at its ends reaches it trimmed. *)
Example group_cookie_cut_at_semicolon :
  option_map (fun jar : gmap string string => jar !! USER_GROUP_COOKIE)
    (CookieBridge.setAuthCookies
       (tokens_with_groups (Some ["Ops;Night"])) (Some ∅)) = Some (Some "Ops")
  /\ option_map (fun jar : gmap string string => jar !! USER_GROUP_COOKIE)
    (CookieBridge.setAuthCookies
       (tokens_with_groups (Some [" Ops "])) (Some ∅)) = Some (Some "Ops").
Proof. split; vm_compute; reflexivity. Qed.

(** C8, amended. For every write of the cookie bridge in a browser in
    which the access token and the id token are both present: an empty
    group sequence sets the [userGroup] cookie to ["none"]; the
    sequence [["DataWovenAdmin"; "X"]] sets it to ["DataWovenAdmin"];
    in general it is set to the first element of the sequence when that
    element is a non-empty string without semicolon and without blanks
    at its ends, and to ["none"] when the first element is the empty
    string. *)
Theorem C8_primary_group_cookie
    (tokens : option Amplify.AuthTokens) (jar : gmap string string) :
  Js.truthy (option_map Amplify.toString (Js.opt tokens Amplify.accessToken)) = true ->
  Js.truthy (option_map Amplify.toString (Js.opt tokens Amplify.idToken)) = true ->
  exists jar',
    CookieBridge.setAuthCookies tokens (Some jar) = Some jar' /\
    (CookieBridge.groupsOf tokens = [] ->
       jar' !! USER_GROUP_COOKIE = Some "none") /\
    (CookieBridge.groupsOf tokens = ["DataWovenAdmin"; "X"] ->
       jar' !! USER_GROUP_COOKIE = Some "DataWovenAdmin") /\
    (forall g gs, CookieBridge.groupsOf tokens = g :: gs ->
       g <> "" -> plain g = true ->
       jar' !! USER_GROUP_COOKIE = Some g) /\
    (forall gs, CookieBridge.groupsOf tokens = "" :: gs ->
       jar' !! USER_GROUP_COOKIE = Some "none").
Proof.
  intros Ha Hi.
  destruct (setAuthCookies_written tokens jar Ha Hi) as (va & vi & vg & E & Hg).
  eexists. split; [exact E|].
  rewrite lookup_insert_eq.
  unfold CookieBridge.primaryGroupOf in Hg.
  repeat split.
  - intros G. rewrite G in Hg. rewrite (Hg eq_refl). reflexivity.
  - intros G. rewrite G in Hg. rewrite (Hg eq_refl). reflexivity.
  - intros g gs G Hne Hp. rewrite G in Hg. simpl in Hg.
    apply String.eqb_neq in Hne. rewrite Hne in Hg.
    rewrite (Hg Hp). reflexivity.
  - intros gs G. rewrite G in Hg. rewrite (Hg eq_refl). reflexivity.
Qed.

Lemma C8_witness :
  exists jar',
    CookieBridge.setAuthCookies
      (tokens_with_groups (Some ["ImplementationUser"])) (Some ∅) = Some jar' /\
    jar' !! USER_GROUP_COOKIE = Some "ImplementationUser".
Proof.
  destruct (C8_primary_group_cookie
              (tokens_with_groups (Some ["ImplementationUser"])) ∅
              eq_refl eq_refl) as (jar' & E & _ & _ & H & _).
  exists jar'. split; [exact E|].
  apply (H "ImplementationUser" []).
  - reflexivity.
  - discriminate.
  - reflexivity.
Defined.

Lemma missing_falsy (v : option string) : missing v -> Js.truthy v = false.
Proof. intros [->| ->]; reflexivity. Qed.

(** C10. When the access token or the id token is missing ([tokens]
    itself undefined, the token undefined, or its string empty),
    [setAuthCookies] assigns no cookie: the window, and with it each of
    the three cookies, is what it was before.  The function has no
    failing outcome. *)
Theorem C10_setAuthCookies_without_token_writes_nothing
    (tokens : option Amplify.AuthTokens)
    (window : option (gmap string string)) :
  missing (option_map Amplify.toString (Js.opt tokens Amplify.accessToken)) \/
  missing (option_map Amplify.toString (Js.opt tokens Amplify.idToken)) ->
  CookieBridge.setAuthCookies tokens window = window.
Proof.
  intros H. unfold CookieBridge.setAuthCookies.
  destruct window as [jar|]; [|reflexivity].
  destruct H as [H|H]; rewrite (missing_falsy _ H).
  - reflexivity.
  - rewrite andb_false_r. reflexivity.
Qed.

Lemma C10_witness :
  CookieBridge.setAuthCookies
    (Some {| Amplify.accessToken :=
               Some {| Amplify.toString := "eyJraWQi.eyJzdWIi.c2ln";
                       Amplify.cognito_groups := Some ["DataWovenAdmin"] |};
             Amplify.idToken := None |})
    (Some lowercase_admin_jar) = Some lowercase_admin_jar.
Proof.
  apply C10_setAuthCookies_without_token_writes_nothing.
  right. left. reflexivity.
Defined.

(** ** The auth state store *)

Ltac step_async :=
  unfold AuthProvider.refreshUser, AuthProvider.login, AuthProvider.logout,
    Async.try_finally, Async.try_catch, Async.bind, Async.await,
    Async.setUser, Async.setLoading, Async.log, Async.on_window,
    Async.ret, Async.throw;
  cbn [fst snd user loading window console].

Section RefreshUserFacts.

Variable p : Provider.
Variable w : World.

Lemma refreshUser_returns : fst (AuthProvider.refreshUser p w) = Normal tt.
Proof.
  step_async.
  destruct (getCurrentUser p), (fetchAuthSession p), (fetchUserAttributes p);
    reflexivity.
Qed.

Lemma refreshUser_loading : loading (snd (AuthProvider.refreshUser p w)) = false.
Proof.
  step_async.
  destruct (getCurrentUser p), (fetchAuthSession p), (fetchUserAttributes p);
    reflexivity.
Qed.

(** A failed refresh empties the session, logs the error and touches
    nothing else; the cookies in particular stay as they were. *)
Lemma refreshUser_failure :
  refresh_fails p ->
  exists e,
    snd (AuthProvider.refreshUser p w) =
      {| user := None; loading := false; window := window w;
         console := (console w ++ [LogError "RefreshUser error:" e])%list |}.
Proof.
  intros H. step_async.
  destruct (getCurrentUser p) as [cu|e1] eqn:E1; [|exists e1; reflexivity].
  destruct (fetchAuthSession p) as [ss|e2] eqn:E2; [|exists e2; reflexivity].
  destruct (fetchUserAttributes p) as [at_|e3] eqn:E3; [|exists e3; reflexivity].
  destruct H as [[e H]|[[e H]|[e H]]]; congruence.
Qed.

(** A successful refresh writes the cookies and then the session. *)
Lemma refreshUser_success (cu : Amplify.AuthUser) (ss : Amplify.AuthSession)
    (attrs : gmap string string) :
  getCurrentUser p = Normal cu ->
  fetchAuthSession p = Normal ss ->
  fetchUserAttributes p = Normal attrs ->
  user (snd (AuthProvider.refreshUser p w)) =
    Some {| email := Js.or_else (attrs !! "email")
                       (Js.or_else (Amplify.loginId cu) "");
            userId := Amplify.userId cu;
            groups := CookieBridge.groupsOf (Amplify.tokens ss);
            attributes := attrs |}
  /\ window (snd (AuthProvider.refreshUser p w)) =
       CookieBridge.setAuthCookies (Amplify.tokens ss) (window w).
Proof.
  intros H1 H2 H3. step_async. rewrite H1, H2, H3. split; reflexivity.
Qed.

End RefreshUserFacts.

Section LoginLogoutFacts.

Variable p : Provider.
Variable w : World.

Lemma login_rethrows (em pw : string) (e : Error) :
  signIn p em pw = Throw e ->
  AuthProvider.login p em pw w =
    (Throw e,
     {| user := user w; loading := loading w; window := window w;
        console := (console w ++ [LogError "Login error:" e])%list |}).
Proof. intros H. step_async. rewrite H. reflexivity. Qed.

Lemma login_returns (em pw : string) (r : Amplify.SignInOutput) :
  signIn p em pw = Normal r ->
  AuthProvider.login p em pw w =
    (Normal r,
     {| user := user w; loading := loading w; window := window w;
        console := (console w ++ [LogResult "Login result:" r])%list |}).
Proof. intros H. step_async. rewrite H. reflexivity. Qed.

Lemma logout_rethrows (e : Error) :
  signOut p = Throw e ->
  AuthProvider.logout p w =
    (Throw e,
     {| user := user w; loading := loading w; window := window w;
        console := (console w ++ [LogError "Logout error:" e])%list |}).
Proof. intros H. step_async. rewrite H. reflexivity. Qed.

Lemma logout_returns (u : unit) :
  signOut p = Normal u ->
  AuthProvider.logout p w =
    (Normal tt,
     {| user := None; loading := loading w;
        window := CookieBridge.clearAuthCookies (window w);
        console := console w |}).
Proof. intros H. step_async. rewrite H. reflexivity. Qed.

End LoginLogoutFacts.

Example signed_in_session :
  option_map email (user signed_in) = Some "ann@datawoven.example"
  /\ option_map groups (user signed_in) = Some ["ImplementationUser"]
  /\ loading signed_in = false
  /\ option_map (fun jar : gmap string string => jar !! USER_GROUP_COOKIE)
       (window signed_in) = Some (Some "ImplementationUser")
  /\ cookies_assert_authentication signed_in = true.
Proof. vm_compute. repeat split; reflexivity. Qed.

(** *** The cookie projection against the session *)

Lemma cleared_cookies_assert_nothing (w w0 : World) :
  window w = CookieBridge.clearAuthCookies (window w0) ->
  cookies_assert_authentication w = false.
Proof.
  intros E. unfold cookies_assert_authentication. rewrite E.
  destruct (window w0) as [jar|]; [|reflexivity].
  rewrite clearAuthCookies_deletes.
  apply isAuthenticated_false. left. simpl.
  rewrite lookup_delete_ne by discriminate.
  rewrite lookup_delete_ne by discriminate. apply lookup_delete_eq.
Qed.

(** Every call except a failing [refreshUser] keeps the projection
    sound: a successful refresh fills the session, [login] touches
    neither side, and [logout] clears both sides or neither. *)
Lemma run_call_projection_sound (c : Call) (w : World) :
  no_failed_refresh c ->
  projection_sound w -> projection_sound (run_call c w).
Proof.
  intros Hc Hw. destruct c as [p|p em pw|p]; simpl in *.
  - destruct (getCurrentUser p) as [cu|e1] eqn:E1;
      [|exfalso; apply Hc; left; eauto].
    destruct (fetchAuthSession p) as [ss|e2] eqn:E2;
      [|exfalso; apply Hc; right; left; eauto].
    destruct (fetchUserAttributes p) as [at_|e3] eqn:E3;
      [|exfalso; apply Hc; right; right; eauto].
    intros Hu.
    rewrite (proj1 (refreshUser_success p w cu ss at_ E1 E2 E3)) in Hu.
    discriminate.
  - destruct (signIn p em pw) as [r|e] eqn:E.
    + rewrite (login_returns p w em pw r E). exact Hw.
    + rewrite (login_rethrows p w em pw e E). exact Hw.
  - destruct (signOut p) as [u|e] eqn:E.
    + rewrite (logout_returns p w u E). intros _.
      apply (cleared_cookies_assert_nothing _ w). reflexivity.
    + rewrite (logout_rethrows p w e E). exact Hw.
Qed.

(** Along every sequence of store calls without a failing refresh,
    started in a browser without cookies, the projection stays sound. *)
Lemma projection_sound_without_failed_refresh (cs : list Call) :
  Forall no_failed_refresh cs -> projection_sound (run cs initial).
Proof.
  assert (forall w, projection_sound w -> Forall no_failed_refresh cs ->
                    projection_sound (run cs w)) as G.
  { induction cs as [|c cs IH]; intros w Hw Hcs; [exact Hw|].
    inversion Hcs as [|? ? Hc Hrest]; subst. simpl.
    apply IH; [|exact Hrest]. apply run_call_projection_sound; assumption. }
  intros Hcs. apply G; [|exact Hcs]. intros _. reflexivity.
Qed.

(** C3. The invariant "an empty session never comes with token cookies
    that assert authentication" is broken by the store: a successful
    [refreshUser] followed by a [refreshUser] that fails leaves the
    session empty while the access-token and id-token cookies written by
    the first call remain, so the route guard keeps serving [/dashboard]
    and keeps sending [/login] to [/dashboard]. *)
Theorem C3_failed_refresh_keeps_token_cookies :
  let w := run [CallRefreshUser (provider_signed_in (Some ["ImplementationUser"]));
                CallRefreshUser (provider_failing "UserUnAuthenticatedException")]
               initial in
  user w = None
  /\ cookies_assert_authentication w = true
  /\ ~ projection_sound w
  /\ (forall jar, window w = Some jar ->
        RouteGuard.middleware
          (request_for "https://datawoven.example" "/dashboard" jar) = Next
        /\ decision (RouteGuard.middleware
             (request_for "https://datawoven.example" "/login" jar))
           = RedirectTo "/dashboard" []).
Proof.
  cbv zeta. split; [|split; [|split]].
  - vm_compute. reflexivity.
  - vm_compute. reflexivity.
  - intros H. unfold projection_sound in H.
    assert (true = false) as F; [|discriminate F].
    rewrite <- H; vm_compute; reflexivity.
  - intros jar H. vm_compute in H. injection H as <-.
    split; vm_compute; reflexivity.
Qed.

(** C4, as stated, fails: when the provider's sign-out rejects,
    [logout] rethrows; the session still holds the user and the token
    cookies are still in the jar. *)
Lemma C4_counterexample_sign_out_throws :
  let w' := snd (AuthProvider.logout (provider_failing "NetworkError") signed_in) in
  fst (AuthProvider.logout (provider_failing "NetworkError") signed_in)
    = Throw "NetworkError"
  /\ user w' = user signed_in
  /\ user w' <> None
  /\ window w' = window signed_in
  /\ cookies_assert_authentication w' = true.
Proof.
  cbv zeta. repeat split; try (vm_compute; reflexivity).
  vm_compute. discriminate.
Qed.

(** C4, amended. When the provider's sign-out resolves, [logout]
    expires the three cookies (none of them is in the jar afterwards),
    empties the session and returns normally.  When sign-out rejects,
    [logout] rethrows the error and leaves session and cookies as they
    were. *)
Theorem C4_logout_clears_after_successful_sign_out (p : Provider) (w : World) :
  (forall u, signOut p = Normal u ->
     exists w',
       AuthProvider.logout p w = (Normal tt, w')
       /\ user w' = None
       /\ window w' = CookieBridge.clearAuthCookies (window w)
       /\ (forall jar', window w' = Some jar' ->
             jar' !! ACCESS_TOKEN_COOKIE = None
             /\ jar' !! ID_TOKEN_COOKIE = None
             /\ jar' !! USER_GROUP_COOKIE = None))
  /\ (forall e, signOut p = Throw e ->
        exists w',
          AuthProvider.logout p w = (Throw e, w')
          /\ user w' = user w
          /\ loading w' = loading w
          /\ window w' = window w).
Proof.
  split.
  - intros u H. rewrite (logout_returns p w u H).
    eexists. split; [reflexivity|]. cbn [user window].
    split; [reflexivity|]. split; [reflexivity|].
    intros jar' Hj. destruct (window w) as [jar|]; [|discriminate].
    rewrite clearAuthCookies_deletes in Hj. injection Hj as <-.
    repeat split.
    + rewrite lookup_delete_ne by discriminate.
      rewrite lookup_delete_ne by discriminate. apply lookup_delete_eq.
    + rewrite lookup_delete_ne by discriminate. apply lookup_delete_eq.
    + apply lookup_delete_eq.
  - intros e H. rewrite (logout_rethrows p w e H).
    eexists. split; [reflexivity|]. repeat split.
Qed.

Lemma C4_witness :
  (exists w',
     AuthProvider.logout (provider_signed_in None) signed_in = (Normal tt, w')
     /\ user w' = None
     /\ window w' = CookieBridge.clearAuthCookies (window signed_in)
     /\ (forall jar', window w' = Some jar' ->
           jar' !! ACCESS_TOKEN_COOKIE = None
           /\ jar' !! ID_TOKEN_COOKIE = None
           /\ jar' !! USER_GROUP_COOKIE = None))
  /\ (exists w',
        AuthProvider.logout (provider_failing "NetworkError") signed_in
          = (Throw "NetworkError", w')
        /\ user w' = user signed_in
        /\ loading w' = loading signed_in
        /\ window w' = window signed_in).
Proof.
  split.
  - apply (proj1 (C4_logout_clears_after_successful_sign_out
                    (provider_signed_in None) signed_in) tt).
    reflexivity.
  - apply (proj2 (C4_logout_clears_after_successful_sign_out
                    (provider_failing "NetworkError") signed_in) "NetworkError").
    reflexivity.
Defined.

(** C5, as stated, fails: a rejected sign-in makes [login] throw to its
    caller, and a rejected sign-out makes [logout] throw to its
    caller. *)
Lemma C5_counterexample_login_and_logout_throw :
  fst (AuthProvider.login (provider_failing "NotAuthorizedException")
         "ann@datawoven.example" "wrong-password" initial)
    = Throw "NotAuthorizedException"
  /\ fst (AuthProvider.logout (provider_failing "NetworkError") signed_in)
    = Throw "NetworkError".
Proof. split; vm_compute; reflexivity. Qed.

(** C5, amended. Of the store operations only [refreshUser] contains
    provider failures: it returns normally whatever the provider calls
    do, and after a failure the caller finds the empty session.  A
    failure of sign-in inside [login], or of sign-out inside [logout],
    is logged and thrown on to the caller, with session and cookies
    unchanged. *)
Theorem C5_only_refreshUser_contains_provider_failures
    (p : Provider) (w : World) :
  fst (AuthProvider.refreshUser p w) = Normal tt
  /\ (refresh_fails p -> user (snd (AuthProvider.refreshUser p w)) = None)
  /\ (forall em pw e, signIn p em pw = Throw e ->
        fst (AuthProvider.login p em pw w) = Throw e
        /\ session_state (snd (AuthProvider.login p em pw w)) = session_state w
        /\ window (snd (AuthProvider.login p em pw w)) = window w)
  /\ (forall e, signOut p = Throw e ->
        fst (AuthProvider.logout p w) = Throw e
        /\ session_state (snd (AuthProvider.logout p w)) = session_state w
        /\ window (snd (AuthProvider.logout p w)) = window w).
Proof.
  split; [apply refreshUser_returns|]. split; [|split].
  - intros H. destruct (refreshUser_failure p w H) as [e ->]. reflexivity.
  - intros em pw e H. rewrite (login_rethrows p w em pw e H).
    repeat split.
  - intros e H. rewrite (logout_rethrows p w e H). repeat split.
Qed.

Lemma C5_witness :
  user (snd (AuthProvider.refreshUser
               (provider_failing "UserUnAuthenticatedException") signed_in))
    = None
  /\ fst (AuthProvider.login (provider_failing "NotAuthorizedException")
            "ann@datawoven.example" "wrong-password" signed_in)
     = Throw "NotAuthorizedException"
  /\ fst (AuthProvider.logout (provider_failing "NetworkError") signed_in)
     = Throw "NetworkError".
Proof.
  split; [|split].
  - apply (C5_only_refreshUser_contains_provider_failures
             (provider_failing "UserUnAuthenticatedException") signed_in).
    left. exists "UserUnAuthenticatedException". reflexivity.
  - apply (C5_only_refreshUser_contains_provider_failures
             (provider_failing "NotAuthorizedException") signed_in).
    reflexivity.
  - apply (C5_only_refreshUser_contains_provider_failures
             (provider_failing "NetworkError") signed_in).
    reflexivity.
Defined.

(** C6. Whenever one of the provider calls of [refreshUser]
    ([getCurrentUser], [fetchAuthSession], [fetchUserAttributes])
    rejects, the session is emptied; the resulting session state is the
    same for every failure, so it records nothing of the error but the
    absence of a user; and the loading flag is [false] on every exit of
    [refreshUser], failed or not. *)
Theorem C6_refreshUser_failure_empties_session (p : Provider) (w : World) :
  loading (snd (AuthProvider.refreshUser p w)) = false
  /\ (refresh_fails p ->
        user (snd (AuthProvider.refreshUser p w)) = None
        /\ fst (AuthProvider.refreshUser p w) = Normal tt
        /\ forall p', refresh_fails p' ->
             session_state (snd (AuthProvider.refreshUser p' w)) =
             session_state (snd (AuthProvider.refreshUser p w))).
Proof.
  split; [apply refreshUser_loading|].
  intros H. destruct (refreshUser_failure p w H) as [e E].
  split; [rewrite E; reflexivity|].
  split; [apply refreshUser_returns|].
  intros p' H'. destruct (refreshUser_failure p' w H') as [e' E'].
  rewrite E, E'. reflexivity.
Qed.

Lemma C6_witness :
  loading (snd (AuthProvider.refreshUser provider_attributes_failing signed_in))
    = false
  /\ user (snd (AuthProvider.refreshUser provider_attributes_failing signed_in))
    = None.
Proof.
  destruct (C6_refreshUser_failure_empties_session
              provider_attributes_failing signed_in) as [Hl Hf].
  split; [exact Hl|].
  apply Hf. right. right. exists "NetworkError". reflexivity.
Defined.

(** ** Scenarios across bridge, store and guard *)

(** Clearing the cookies makes the guard send every protected path to
    the login page. *)
Lemma cleared_cookies_redirect_to_login
    (jar : gmap string string) (host path : string) :
  RouteGuard.isAuthenticatedRoute path = true ->
  exists jar',
    CookieBridge.clearAuthCookies (Some jar) = Some jar' /\
    RouteGuard.middleware (request_for host path jar') =
      Redirect {| origin := host; pathname := "/login";
                  searchParams := [("redirect", path)] |}.
Proof.
  intros Hr. rewrite clearAuthCookies_deletes. eexists. split; [reflexivity|].
  apply (middleware_unauthenticated (request_for host path _)); [exact Hr|].
  apply isAuthenticated_false. left. simpl.
  rewrite lookup_delete_ne by discriminate.
  rewrite lookup_delete_ne by discriminate. apply lookup_delete_eq.
Qed.

(** A user of the group [ImplementationUser] is turned away from
    [/admin] and served [/implementation]. *)
Example implementation_user_scenario :
  forall jar, window signed_in = Some jar ->
    decision (RouteGuard.middleware
      (request_for "https://datawoven.example" "/admin" jar))
      = RedirectTo "/dashboard" [("error", "unauthorized")]
    /\ decision (RouteGuard.middleware
      (request_for "https://datawoven.example" "/implementation" jar))
      = Continue.
Proof.
  intros jar H. vm_compute in H. injection H as <-.
  split; vm_compute; reflexivity.
Qed.

(** After a successful logout a request for [/dashboard] is sent to the
    login page. *)
Example logout_scenario :
  let w := run [CallLogout (provider_signed_in None)] signed_in in
  user w = None
  /\ forall jar, window w = Some jar ->
       decision (RouteGuard.middleware
         (request_for "https://datawoven.example" "/dashboard" jar))
       = RedirectTo "/login" [("redirect", "/dashboard")].
Proof.
  cbv zeta. split; [vm_compute; reflexivity|].
  intros jar H. vm_compute in H. injection H as <-.
  vm_compute. reflexivity.
Qed.

(** * Further properties of the code *)

(** ** The route guard beyond the claimed rules *)

Lemma isAuthenticated_follow (request : NextRequest) (u : URL) :
  RouteGuard.isAuthenticated (follow request u) =
  RouteGuard.isAuthenticated request.
Proof. reflexivity. Qed.

(** X1. The guard never sends the browser in circles: the request that
    follows a redirect of the guard, with the same cookies, is let
    through. *)
Theorem X1_guard_redirect_is_served (request : NextRequest) (u : URL) :
  RouteGuard.middleware request = Redirect u ->
  RouteGuard.middleware (follow request u) = Next.
Proof.
  unfold RouteGuard.middleware at 1.
  destruct (RouteGuard.isAuthenticated request) eqn:Ha; simpl negb;
    rewrite ?andb_false_r, ?andb_true_r; cbv iota;
    repeat match goal with
           | |- context [if ?b then _ else _] => destruct b eqn:?
           end;
    intros H; try discriminate; injection H as <-;
    unfold RouteGuard.middleware; rewrite isAuthenticated_follow, Ha;
    reflexivity.
Qed.

Lemma X1_witness :
  RouteGuard.middleware
    (follow (request_for "https://datawoven.example" "/admin/provisioning"
               lowercase_admin_jar)
       {| origin := "https://datawoven.example"; pathname := "/dashboard";
          searchParams := [("error", "unauthorized")] |}) = Next.
Proof.
  apply X1_guard_redirect_is_served. vm_compute. reflexivity.
Defined.

(** X2. A request with both token cookies is let through on every path
    that does not start with [/login], provided the path is no admin
    route or the [userGroup] cookie is ["DataWovenAdmin"]: outside
    [/admin] the group plays no part. *)
Theorem X2_authenticated_request_is_served (request : NextRequest) :
  is_Some (cookies request !! ACCESS_TOKEN_COOKIE) ->
  is_Some (cookies request !! ID_TOKEN_COOKIE) ->
  Js.startsWith (pathname (url request)) "/login" = false ->
  RouteGuard.isAdminRoute (pathname (url request)) = false \/
  cookies request !! USER_GROUP_COOKIE = Some "DataWovenAdmin" ->
  RouteGuard.middleware request = Next.
Proof.
  intros Ha Hi Hl Hg. unfold RouteGuard.middleware.
  rewrite (isAuthenticated_true _ Ha Hi), Hl. simpl negb.
  rewrite !andb_false_r, andb_true_r.
  destruct Hg as [Hg|Hg]; rewrite Hg; [reflexivity|].
  change (Js.strict_neq (Some "DataWovenAdmin") (Some "DataWovenAdmin"))
    with false.
  rewrite andb_false_r. reflexivity.
Qed.

Lemma X2_witness :
  RouteGuard.middleware
    (request_for "https://datawoven.example" "/admin/provisioning"
       (<[USER_GROUP_COOKIE := "DataWovenAdmin"]> lowercase_admin_jar)) = Next
  /\ RouteGuard.middleware
       (request_for "https://datawoven.example" "/implementation/chat"
          lowercase_admin_jar) = Next.
Proof.
  split; apply X2_authenticated_request_is_served.
  - vm_compute. eauto.
  - vm_compute. eauto.
  - reflexivity.
  - right. vm_compute. reflexivity.
  - vm_compute. eauto.
  - vm_compute. eauto.
  - reflexivity.
  - left. reflexivity.
Defined.

(** X3. A request that lacks a token cookie is let through on every
    path outside the five protected prefixes, the public pages and
    unknown paths alike, whatever other cookies it carries. *)
Theorem X3_unprotected_path_is_served_without_tokens (request : NextRequest) :
  RouteGuard.isAuthenticatedRoute (pathname (url request)) = false ->
  cookies request !! ACCESS_TOKEN_COOKIE = None \/
  cookies request !! ID_TOKEN_COOKIE = None ->
  RouteGuard.middleware request = Next.
Proof.
  intros Hr Ha. unfold RouteGuard.middleware.
  rewrite Hr, (isAuthenticated_false _ Ha). rewrite !andb_false_r.
  reflexivity.
Qed.

Lemma X3_witness :
  RouteGuard.middleware
    (request_for "https://datawoven.example" "/reset-password"
       (<[USER_GROUP_COOKIE := "DataWovenAdmin"]> ∅)) = Next.
Proof.
  apply X3_unprotected_path_is_served_without_tokens.
  - vm_compute. reflexivity.
  - left. vm_compute. reflexivity.
Defined.

(** X4. No path is public and protected at once: a path that starts
    with [/login], [/signup], [/forgot-password] or [/reset-password],
    or is [/], starts with none of the protected prefixes. *)
Theorem X4_public_and_protected_are_disjoint (path : string) :
  RouteGuard.isPublicRoute path && RouteGuard.isAuthenticatedRoute path = false.
Proof.
  destruct (RouteGuard.isPublicRoute path) eqn:Hp; [|reflexivity].
  unfold RouteGuard.isPublicRoute in Hp.
  repeat (apply orb_true_iff in Hp as [Hp|Hp]);
    try (apply startsWith_inv in Hp as [r ->]; reflexivity).
  apply String.eqb_eq in Hp. subst. reflexivity.
Qed.

(** ** The cookie bridge as an operation on the jar *)

(** What a write with both tokens stores depends on the tokens alone. *)
Lemma setAuthCookies_values (tokens : option Amplify.AuthTokens) :
  Js.truthy (option_map Amplify.toString (Js.opt tokens Amplify.accessToken)) = true ->
  Js.truthy (option_map Amplify.toString (Js.opt tokens Amplify.idToken)) = true ->
  exists va vi vg,
    (forall jar : gmap string string,
       CookieBridge.setAuthCookies tokens (Some jar) =
         Some (<[USER_GROUP_COOKIE := vg]>
                 (<[ID_TOKEN_COOKIE := vi]> (<[ACCESS_TOKEN_COOKIE := va]> jar))))
    /\ (plain (CookieBridge.primaryGroupOf tokens) = true ->
        vg = CookieBridge.primaryGroupOf tokens).
Proof.
  intros Ha Hi.
  destruct (parse_written ACCESS_TOKEN_COOKIE
              (template (option_map Amplify.toString
                           (Js.opt tokens Amplify.accessToken))) eq_refl)
    as (va & Ea & _).
  destruct (parse_written ID_TOKEN_COOKIE
              (template (option_map Amplify.toString
                           (Js.opt tokens Amplify.idToken))) eq_refl)
    as (vi & Ei & _).
  destruct (parse_written USER_GROUP_COOKIE
              (CookieBridge.primaryGroupOf tokens) eq_refl)
    as (vg & Eg & Hg).
  exists va, vi, vg. split; [|exact Hg].
  intros jar. unfold CookieBridge.setAuthCookies.
  rewrite Ha, Hi. cbv beta iota zeta. simpl andb. cbv iota.
  unfold Cookie.assign.
  change ("CognitoIdentityServiceProvider.accessToken=" +:+
            template (option_map Amplify.toString
                        (Js.opt tokens Amplify.accessToken))
            +:+ "; path=/; max-age=3600; SameSite=Lax")
    with (ACCESS_TOKEN_COOKIE +:+ "=" +:+
            template (option_map Amplify.toString
                        (Js.opt tokens Amplify.accessToken))
            +:+ "; path=/; max-age=3600; SameSite=Lax").
  change ("CognitoIdentityServiceProvider.idToken=" +:+
            template (option_map Amplify.toString
                        (Js.opt tokens Amplify.idToken))
            +:+ "; path=/; max-age=3600; SameSite=Lax")
    with (ID_TOKEN_COOKIE +:+ "=" +:+
            template (option_map Amplify.toString
                        (Js.opt tokens Amplify.idToken))
            +:+ "; path=/; max-age=3600; SameSite=Lax").
  change ("CognitoIdentityServiceProvider.userGroup=" +:+
            CookieBridge.primaryGroupOf tokens
            +:+ "; path=/; max-age=3600; SameSite=Lax")
    with (USER_GROUP_COOKIE +:+ "=" +:+ CookieBridge.primaryGroupOf tokens
            +:+ "; path=/; max-age=3600; SameSite=Lax").
  rewrite Ea, Ei, Eg. reflexivity.
Qed.

Lemma setAuthCookies_cases (tokens : option Amplify.AuthTokens) :
  (forall w, CookieBridge.setAuthCookies tokens w = w) \/
  (exists va vi vg,
     forall jar : gmap string string,
       CookieBridge.setAuthCookies tokens (Some jar) =
         Some (<[USER_GROUP_COOKIE := vg]>
                 (<[ID_TOKEN_COOKIE := vi]> (<[ACCESS_TOKEN_COOKIE := va]> jar)))).
Proof.
  destruct (Js.truthy (option_map Amplify.toString
                         (Js.opt tokens Amplify.accessToken))) eqn:Ha;
  destruct (Js.truthy (option_map Amplify.toString
                         (Js.opt tokens Amplify.idToken))) eqn:Hi.
  - right. destruct (setAuthCookies_values tokens Ha Hi) as (va & vi & vg & H & _).
    eauto.
  - left. intros [jar|]; [|reflexivity].
    unfold CookieBridge.setAuthCookies. rewrite Ha, Hi. reflexivity.
  - left. intros [jar|]; [|reflexivity].
    unfold CookieBridge.setAuthCookies. rewrite Ha. reflexivity.
  - left. intros [jar|]; [|reflexivity].
    unfold CookieBridge.setAuthCookies. rewrite Ha. reflexivity.
Qed.

Ltac bridge_lookup :=
  repeat first
    [ rewrite lookup_insert_eq
    | rewrite lookup_delete_eq
    | rewrite lookup_insert_ne by (assumption || discriminate)
    | rewrite lookup_delete_ne by (assumption || discriminate) ].

(** Equality of jars, decided name by name. *)
Ltac bridge_map_eq :=
  apply map_eq; intros k;
  destruct (decide (USER_GROUP_COOKIE = k)) as [<-|?];
    [bridge_lookup; reflexivity|];
  destruct (decide (ID_TOKEN_COOKIE = k)) as [<-|?];
    [bridge_lookup; reflexivity|];
  destruct (decide (ACCESS_TOKEN_COOKIE = k)) as [<-|?];
    [bridge_lookup; reflexivity|];
  bridge_lookup; reflexivity.

Lemma bridge_cookie_false (k : string) :
  bridge_cookie k = false ->
  ACCESS_TOKEN_COOKIE <> k /\ ID_TOKEN_COOKIE <> k /\ USER_GROUP_COOKIE <> k.
Proof.
  unfold bridge_cookie. intros H.
  apply orb_false_iff in H as [H Hg]. apply orb_false_iff in H as [Ha Hi].
  apply String.eqb_neq in Ha, Hi, Hg. repeat split; congruence.
Qed.

(** X5. The bridge touches its own three cookies only: whatever the
    tokens are, every cookie under another name has the same value
    after [setAuthCookies], and after [clearAuthCookies], as before. *)
Theorem X5_bridge_leaves_other_cookies_alone
    (tokens : option Amplify.AuthTokens) (jar : gmap string string) (k : string) :
  bridge_cookie k = false ->
  (exists jar', CookieBridge.setAuthCookies tokens (Some jar) = Some jar'
                /\ jar' !! k = jar !! k)
  /\ (exists jar', CookieBridge.clearAuthCookies (Some jar) = Some jar'
                   /\ jar' !! k = jar !! k).
Proof.
  intros Hk. apply bridge_cookie_false in Hk as (Ha & Hi & Hg). split.
  - destruct (setAuthCookies_cases tokens) as [H|(va & vi & vg & H)];
      rewrite H; eexists; (split; [reflexivity|]); [reflexivity|].
    rewrite !lookup_insert_ne by assumption. reflexivity.
  - rewrite clearAuthCookies_deletes. eexists. split; [reflexivity|].
    rewrite !lookup_delete_ne by assumption. reflexivity.
Qed.

Lemma X5_witness :
  (exists jar',
     CookieBridge.setAuthCookies (tokens_with_groups (Some ["DataWovenAdmin"]))
       (Some {[ "theme" := "dark" ]}) = Some jar'
     /\ jar' !! "theme" = ({[ "theme" := "dark" ]} : gmap string string) !! "theme")
  /\ (exists jar',
        CookieBridge.clearAuthCookies (Some {[ "theme" := "dark" ]}) = Some jar'
        /\ jar' !! "theme" = ({[ "theme" := "dark" ]} : gmap string string) !! "theme").
Proof.
  apply X5_bridge_leaves_other_cookies_alone. reflexivity.
Defined.

Lemma setAuthCookies_idempotent
    (tokens : option Amplify.AuthTokens) (w : option (gmap string string)) :
  CookieBridge.setAuthCookies tokens (CookieBridge.setAuthCookies tokens w) =
    CookieBridge.setAuthCookies tokens w.
Proof.
  destruct (setAuthCookies_cases tokens) as [H|(va & vi & vg & H)].
  - rewrite !H. reflexivity.
  - destruct w as [jar|]; [|reflexivity].
    rewrite !H. f_equal. bridge_map_eq.
Qed.

Lemma clearAuthCookies_idempotent (w : option (gmap string string)) :
  CookieBridge.clearAuthCookies (CookieBridge.clearAuthCookies w) =
    CookieBridge.clearAuthCookies w.
Proof.
  destruct w as [jar|]; [|reflexivity].
  rewrite !clearAuthCookies_deletes. f_equal. bridge_map_eq.
Qed.

(** X6. Writing and clearing are idempotent: a second
    [setAuthCookies] with the same tokens, or a second
    [clearAuthCookies], leaves the window as the first one left it. *)
Theorem X6_bridge_is_idempotent
    (tokens : option Amplify.AuthTokens) (w : option (gmap string string)) :
  CookieBridge.setAuthCookies tokens (CookieBridge.setAuthCookies tokens w) =
    CookieBridge.setAuthCookies tokens w
  /\ CookieBridge.clearAuthCookies (CookieBridge.clearAuthCookies w) =
       CookieBridge.clearAuthCookies w.
Proof.
  split; [apply setAuthCookies_idempotent|apply clearAuthCookies_idempotent].
Qed.



(** ** Bridge and guard together *)



(** X9. After [clearAuthCookies] the guard treats every request of the
    browser as unauthenticated: a protected path is sent to [/login]
    with the path as [redirect] parameter, every other path is
    served. *)
Theorem X9_cleared_cookies_deauthenticate
    (jar : gmap string string) (host path : string) :
  exists jar',
    CookieBridge.clearAuthCookies (Some jar) = Some jar'
    /\ RouteGuard.middleware (request_for host path jar') =
         if RouteGuard.isAuthenticatedRoute path
         then Redirect {| origin := host; pathname := "/login";
                          searchParams := [("redirect", path)] |}
         else Next.
Proof.
  rewrite clearAuthCookies_deletes. eexists. split; [reflexivity|].
  unfold RouteGuard.middleware.
  rewrite isAuthenticated_false by (left; simpl; bridge_lookup; reflexivity).
  simpl pathname. destruct (RouteGuard.isAuthenticatedRoute path); [reflexivity|].
  rewrite !andb_false_r. reflexivity.
Qed.

(** ** The store beyond the claimed operations *)

(** X10. [login] hands the outcome of the provider's sign-in to its
    caller as it is, resolved or rejected, and changes neither the
    session nor the loading flag nor any cookie; it adds one entry to
    the console. *)
Theorem X10_login_is_transparent
    (p : Provider) (em pw : string) (w : World) :
  fst (AuthProvider.login p em pw w) = signIn p em pw
  /\ user (snd (AuthProvider.login p em pw w)) = user w
  /\ loading (snd (AuthProvider.login p em pw w)) = loading w
  /\ window (snd (AuthProvider.login p em pw w)) = window w
  /\ length (console (snd (AuthProvider.login p em pw w))) =
       S (length (console w)).
Proof.
  destruct (signIn p em pw) as [r|e] eqn:E.
  - rewrite (login_returns p w em pw r E). cbn [fst snd user loading window console].
    rewrite length_app. simpl. repeat split. lia.
  - rewrite (login_rethrows p w em pw e E). cbn [fst snd user loading window console].
    rewrite length_app. simpl. repeat split. lia.
Qed.



(** X12. A [refreshUser] that succeeds with a session lacking a token
    fills the session but writes no cookie: the user is signed in for
    the pages while the cookies, and with them the guard's view, stay
    as they were. *)
Theorem X12_refresh_without_tokens_keeps_cookies
    (p : Provider) (w : World)
    (cu : Amplify.AuthUser) (ss : Amplify.AuthSession)
    (attrs : gmap string string) :
  getCurrentUser p = Normal cu ->
  fetchAuthSession p = Normal ss ->
  fetchUserAttributes p = Normal attrs ->
  missing (option_map Amplify.toString
             (Js.opt (Amplify.tokens ss) Amplify.accessToken)) \/
  missing (option_map Amplify.toString
             (Js.opt (Amplify.tokens ss) Amplify.idToken)) ->
  is_Some (user (snd (AuthProvider.refreshUser p w)))
  /\ window (snd (AuthProvider.refreshUser p w)) = window w
  /\ cookies_assert_authentication (snd (AuthProvider.refreshUser p w)) =
       cookies_assert_authentication w.
Proof.
  intros H1 H2 H3 Hm.
  destruct (refreshUser_success p w cu ss attrs H1 H2 H3) as [Eu Ew].
  assert (CookieBridge.setAuthCookies (Amplify.tokens ss) (window w) = window w)
    as Hs.
  { unfold CookieBridge.setAuthCookies.
    destruct (window w) as [jar|]; [|reflexivity].
    destruct Hm as [Hm|Hm]; rewrite (missing_falsy _ Hm);
      rewrite ?andb_false_r; reflexivity. }
  rewrite Hs in Ew.
  split; [rewrite Eu; eauto|]. split; [exact Ew|].
  unfold cookies_assert_authentication. rewrite Ew. reflexivity.
Qed.

Lemma X12_witness :
  is_Some (user (snd (AuthProvider.refreshUser provider_without_tokens initial)))
  /\ window (snd (AuthProvider.refreshUser provider_without_tokens initial))
     = window initial
  /\ cookies_assert_authentication
       (snd (AuthProvider.refreshUser provider_without_tokens initial))
     = cookies_assert_authentication initial.
Proof.
  apply (X12_refresh_without_tokens_keeps_cookies provider_without_tokens
           initial ann {| Amplify.tokens := None |} ∅);
    try reflexivity.
  left. left. reflexivity.
Defined.

(** X13. [refreshUser] is idempotent on session, loading flag and
    cookies: against the same provider outcomes a second call leaves
    all three as the first call left them. *)
Theorem X13_refreshUser_is_idempotent (p : Provider) (w : World) :
  let w1 := snd (AuthProvider.refreshUser p w) in
  let w2 := snd (AuthProvider.refreshUser p w1) in
  user w2 = user w1 /\ loading w2 = loading w1 /\ window w2 = window w1.
Proof.
  cbv zeta.
  destruct (getCurrentUser p) as [cu|e1] eqn:E1;
    [destruct (fetchAuthSession p) as [ss|e2] eqn:E2;
       [destruct (fetchUserAttributes p) as [at_|e3] eqn:E3|]|].
  - destruct (refreshUser_success p w cu ss at_ E1 E2 E3) as [Eu Ew].
    destruct (refreshUser_success p (snd (AuthProvider.refreshUser p w))
                cu ss at_ E1 E2 E3) as [Eu' Ew'].
    rewrite !refreshUser_loading, Eu, Eu', Ew', Ew.
    repeat split. apply setAuthCookies_idempotent.
  - assert (refresh_fails p) as F by (right; right; eauto).
    destruct (refreshUser_failure p w F) as [e ->].
    destruct (refreshUser_failure p
                {| user := None; loading := false; window := window w;
                   console := (console w ++ [LogError "RefreshUser error:" e])%list |}
                F) as [e' ->].
    repeat split.
  - assert (refresh_fails p) as F by (right; left; eauto).
    destruct (refreshUser_failure p w F) as [e ->].
    destruct (refreshUser_failure p
                {| user := None; loading := false; window := window w;
                   console := (console w ++ [LogError "RefreshUser error:" e])%list |}
                F) as [e' ->].
    repeat split.
  - assert (refresh_fails p) as F by (left; eauto).
    destruct (refreshUser_failure p w F) as [e ->].
    destruct (refreshUser_failure p
                {| user := None; loading := false; window := window w;
                   console := (console w ++ [LogError "RefreshUser error:" e])%list |}
                F) as [e' ->].
    repeat split.
Qed.

(** X14. Started from any world in which an empty session comes
    without asserting cookies, every sequence of [refreshUser],
    [login] and [logout] calls in which no refresh fails keeps it that
    way: [logout] clears session and cookies together or neither, and
    [login] touches neither. *)
Theorem X14_projection_sound_is_preserved (cs : list Call) (w : World) :
  projection_sound w ->
  Forall no_failed_refresh cs ->
  projection_sound (run cs w).
Proof.
  revert w. induction cs as [|c cs IH]; intros w Hw Hcs; [exact Hw|].
  inversion Hcs as [|? ? Hc Hrest]; subst. simpl.
  apply IH; [|exact Hrest]. apply run_call_projection_sound; assumption.
Qed.

Lemma X14_witness :
  projection_sound
    (run [CallLogin (provider_failing "NotAuthorizedException") "ann" "pw";
          CallLogout (provider_failing "NetworkError");
          CallLogout (provider_signed_in None)]
         signed_in).
Proof.
  apply X14_projection_sound_is_preserved.
  - intros H. vm_compute in H. discriminate.
  - repeat constructor.
Defined.

Lemma run_call_loading (c : Call) (w : World) :
  loading (run_call c w) = false \/ loading (run_call c w) = loading w.
Proof.
  destruct c as [p|p em pw|p]; simpl.
  - left. apply refreshUser_loading.
  - right. destruct (signIn p em pw) as [r|e] eqn:E.
    + rewrite (login_returns p w em pw r E). reflexivity.
    + rewrite (login_rethrows p w em pw e E). reflexivity.
  - right. destruct (signOut p) as [u|e] eqn:E.
    + rewrite (logout_returns p w u E). reflexivity.
    + rewrite (logout_rethrows p w e E). reflexivity.
Qed.

Lemma run_loading_false (cs : list Call) (w : World) :
  loading w = false -> loading (run cs w) = false.
Proof.
  revert w. induction cs as [|c cs IH]; intros w Hw; [exact Hw|].
  simpl. apply IH.
  destruct (run_call_loading c w) as [H|H]; [exact H|congruence].
Qed.

(** X15. The loading flag only ever goes down: no store operation
    sets it, so once it is [false] it stays [false], and it is [false]
    after every sequence of calls that contains a [refreshUser],
    whether that refresh succeeded or failed. *)
Theorem X15_loading_never_returns (cs : list Call) (w : World) :
  (loading w = false -> loading (run cs w) = false)
  /\ (forall p, In (CallRefreshUser p) cs -> loading (run cs w) = false).
Proof.
  split; [apply run_loading_false|].
  revert w. induction cs as [|c cs IH]; intros w p Hin; [destruct Hin|].
  simpl. destruct Hin as [->|Hin].
  - apply run_loading_false. simpl. apply refreshUser_loading.
  - apply (IH _ p Hin).
Qed.

Lemma X15_witness :
  loading (run [CallLogin (provider_signed_in None) "ann" "pw";
                CallRefreshUser (provider_failing "NetworkError");
                CallLogout (provider_signed_in None)] initial) = false.
Proof.
  apply (proj2 (X15_loading_never_returns _ initial)
           (provider_failing "NetworkError")).
  simpl. tauto.
Defined.

(** ** The user menu *)

(** X16. [handleLogout] navigates to [/login] exactly when sign-out
    succeeded, and then the guard serves the login page instead of
    sending it back to the dashboard; when sign-out rejects, the error
    reaches the caller, nothing is pushed and session and cookies
    stay. *)
Theorem X16_handleLogout_navigates_after_sign_out
    (p : Provider) (s : UserMenu.state) :
  match signOut p with
  | Normal _ =>
      exists s',
        UserMenu.handleLogout p s = (Normal tt, s')
        /\ UserMenu.pushed s' = (UserMenu.pushed s ++ ["/login"])%list
        /\ user (UserMenu.auth s') = None
        /\ (forall jar host, window (UserMenu.auth s') = Some jar ->
              RouteGuard.middleware (request_for host "/login" jar) = Next)
  | Throw e =>
      exists s',
        UserMenu.handleLogout p s = (Throw e, s')
        /\ UserMenu.pushed s' = UserMenu.pushed s
        /\ user (UserMenu.auth s') = user (UserMenu.auth s)
        /\ window (UserMenu.auth s') = window (UserMenu.auth s)
  end.
Proof.
  destruct (signOut p) as [u|e] eqn:E; unfold UserMenu.handleLogout.
  - rewrite (logout_returns p _ u E). eexists. split; [reflexivity|].
    cbn [UserMenu.pushed UserMenu.auth user window].
    split; [reflexivity|]. split; [reflexivity|].
    intros jar host Hj.
    destruct (window (UserMenu.auth s)) as [jar0|]; [|discriminate].
    rewrite clearAuthCookies_deletes in Hj. injection Hj as <-.
    unfold RouteGuard.middleware.
    rewrite isAuthenticated_false by (left; simpl; bridge_lookup; reflexivity).
    reflexivity.
  - rewrite (logout_rethrows p _ e E). eexists. split; [reflexivity|].
    repeat split.
Qed.

Lemma X16_witness :
  exists s',
    UserMenu.handleLogout (provider_signed_in None)
      {| UserMenu.auth := signed_in; UserMenu.pushed := ["/dashboard"] |}
      = (Normal tt, s')
    /\ UserMenu.pushed s' = ["/dashboard"; "/login"]
    /\ user (UserMenu.auth s') = None
    /\ RouteGuard.middleware
         (request_for "https://datawoven.example" "/login"
            (default ∅ (window (UserMenu.auth s')))) = Next.
Proof.
  destruct (X16_handleLogout_navigates_after_sign_out (provider_signed_in None)
              {| UserMenu.auth := signed_in; UserMenu.pushed := ["/dashboard"] |})
    as (s' & E & Hp & Hu & Hg).
  exists s'. split; [exact E|]. split; [exact Hp|]. split; [exact Hu|].
  destruct (window (UserMenu.auth s')) as [jar|] eqn:W.
  - apply (Hg jar). reflexivity.
  - reflexivity.
Defined.

(** ** The navigation of the header *)

Example slug_examples :
  Header.slug "Resources" "Security & Privacy" = "/resources/security-and-privacy"
  /\ Header.slug "Services" "AI Solutions" = "/services/ai-solutions"
  /\ Header.slug "Discovery Tools" "Sessions" = "/discovery tools/sessions"
  /\ Header.slug_item "  --FAQ?! " = "faq"
  /\ Header.slug_item "***" = "".
Proof. repeat split; vm_compute; reflexivity. Qed.

Section SlugFacts.

Import Header.

Lemma replace_runs_dashes_apart (b : bool) (s : string) :
  dashes_apart b (replace_runs b s) = true.
Proof.
  revert b. induction s as [|c s IH]; intros b; simpl; [reflexivity|].
  destruct (is_slug_char c) eqn:Ec.
  - simpl. rewrite Ec. apply IH.
  - destruct b; [apply IH|].
    simpl. rewrite IH. reflexivity.
Qed.

Lemma strip_leading_dash_eq (c : ascii) (s : string) :
  strip_leading_dash (String c s) = if Ascii.eqb c "-" then s else String c s.
Proof. destruct c as [[] [] [] [] [] [] [] []]; reflexivity. Qed.

Lemma strip_trailing_dash_eq (c : ascii) (s : string) :
  strip_trailing_dash (String c s) =
    match s with
    | EmptyString => if Ascii.eqb c "-" then EmptyString else String c EmptyString
    | _ => String c (strip_trailing_dash s)
    end.
Proof.
  destruct s; destruct c as [[] [] [] [] [] [] [] []]; reflexivity.
Qed.

Lemma dashes_apart_weaken (b : bool) (s : string) :
  dashes_apart true s = true -> dashes_apart b s = true.
Proof.
  destruct s as [|c s]; [reflexivity|]. simpl.
  destruct (is_slug_char c); [tauto|].
  destruct (Ascii.eqb c "-"); [discriminate|tauto].
Qed.

Lemma strip_leading_dash_apart (s : string) :
  dashes_apart false s = true -> dashes_apart true (strip_leading_dash s) = true.
Proof.
  destruct s as [|c s]; [reflexivity|].
  rewrite strip_leading_dash_eq. simpl.
  destruct (is_slug_char c) eqn:Ec.
  - destruct (Ascii.eqb_spec c "-") as [->|_]; [discriminate Ec|].
    simpl. rewrite Ec. tauto.
  - destruct (Ascii.eqb c "-"); [|discriminate]. simpl. tauto.
Qed.

Lemma strip_trailing_dash_apart (b : bool) (s : string) :
  dashes_apart b s = true -> dashes_apart b (strip_trailing_dash s) = true.
Proof.
  revert b. induction s as [|c s IH]; intros b; [reflexivity|].
  rewrite strip_trailing_dash_eq. intros H.
  destruct s as [|d s].
  - destruct (Ascii.eqb c "-"); [reflexivity|exact H].
  - simpl in H. change (dashes_apart b (String c (strip_trailing_dash (String d s))) = true).
    simpl. destruct (is_slug_char c).
    + apply IH. exact H.
    + destruct (Ascii.eqb c "-"); [|discriminate].
      apply andb_true_iff in H as [Hb H]. rewrite Hb. simpl.
      apply IH. exact H.
Qed.

Lemma strip_trailing_dash_end (b : bool) (s : string) :
  dashes_apart b s = true -> ends_with_dash (strip_trailing_dash s) = false.
Proof.
  revert b. induction s as [|c s IH]; intros b; [reflexivity|].
  rewrite strip_trailing_dash_eq. intros H.
  destruct s as [|d s].
  - destruct (Ascii.eqb c "-") eqn:E; [reflexivity|]. simpl. exact E.
  - simpl in H.
    assert (exists b', dashes_apart b' (String d s) = true
                       /\ (Ascii.eqb c "-" = true -> b' = true)) as (b' & H' & Hc).
    { destruct (is_slug_char c) eqn:Ec.
      - exists false. split; [exact H|].
        intros E. apply Ascii.eqb_eq in E. subst c. discriminate Ec.
      - destruct (Ascii.eqb c "-"); [|discriminate].
        apply andb_true_iff in H as [_ H]. exists true. split; [exact H|tauto]. }
    pose proof (IH b' H') as Hend.
    rewrite strip_trailing_dash_eq in Hend |- *.
    destruct s as [|e s].
    + destruct (Ascii.eqb d "-") eqn:Ed.
      * (* the remainder is a lone dash: [c] is no dash *)
        simpl. destruct (Ascii.eqb c "-") eqn:E; [|reflexivity].
        rewrite (Hc eq_refl) in H'. simpl in H'.
        apply Ascii.eqb_eq in Ed. subst d. discriminate H'.
      * simpl. exact Ed.
    + exact Hend.
Qed.

Lemma slug_item_shape (item : string) :
  slug_shape (Header.slug_item item) = true.
Proof.
  unfold slug_shape, slug_item, strip_dashes.
  pose proof (replace_runs_dashes_apart false
                (replace_ampersand (JsLib.toLowerCase item))) as H.
  apply strip_leading_dash_apart in H.
  rewrite (strip_trailing_dash_apart _ _ H).
  rewrite (strip_trailing_dash_end _ _ H). reflexivity.
Qed.

Lemma dashes_apart_alphabet (b : bool) (s : string) (c : ascii) :
  dashes_apart b s = true -> Cookie.occurs c s = true ->
  is_slug_char c = true \/ c = "-"%char.
Proof.
  revert b. induction s as [|d s IH]; intros b H Hc; [discriminate Hc|].
  simpl in H, Hc. apply orb_true_iff in Hc as [Hc|Hc].
  - apply Ascii.eqb_eq in Hc. subst d.
    destruct (is_slug_char c); [tauto|].
    destruct (Ascii.eqb_spec c "-"); [tauto|discriminate].
  - destruct (is_slug_char d); [eapply IH; eassumption|].
    destruct (Ascii.eqb d "-"); [|discriminate].
    apply andb_true_iff in H as [_ H]. eapply IH; eassumption.
Qed.

Lemma dashes_apart_no_dash_first (s : string) :
  dashes_apart true s = true -> Js.startsWith s "-" = false.
Proof.
  destruct s as [|c s]; [reflexivity|]. simpl.
  destruct (is_slug_char c) eqn:Ec.
  - destruct (Ascii.eqb_spec c "-") as [->|]; [discriminate Ec|reflexivity].
  - destruct (Ascii.eqb c "-"); discriminate.
Qed.

(** X17. The item part of every navigation link is a clean path
    segment: whatever the label, [slug] turns it into lower-case
    letters, digits and single dashes, without a dash at the start or
    at the end. *)
Theorem X17_slug_item_shape (item : string) :
  slug_shape (Header.slug_item item) = true
  /\ (forall c, Cookie.occurs c (Header.slug_item item) = true ->
        is_slug_char c = true \/ c = "-"%char)
  /\ Js.startsWith (Header.slug_item item) "-" = false
  /\ ends_with_dash (Header.slug_item item) = false.
Proof.
  pose proof (slug_item_shape item) as H. split; [exact H|].
  unfold slug_shape in H. apply andb_true_iff in H as [Hd He].
  apply negb_true_iff in He. split; [|split].
  - intros c. apply dashes_apart_alphabet with (b := true). exact Hd.
  - apply dashes_apart_no_dash_first. exact Hd.
  - exact He.
Qed.

Lemma slug_char_fixed (c : ascii) :
  is_slug_char c = true \/ c = "-"%char ->
  JsLib.lower c = c /\ Ascii.eqb c "&" = false.
Proof.
  intros [H| ->]; [|split; reflexivity].
  destruct c as [[] [] [] [] [] [] [] []];
    try discriminate H; split; reflexivity.
Qed.

Lemma dashes_apart_lower (b : bool) (s : string) :
  dashes_apart b s = true ->
  replace_ampersand (JsLib.toLowerCase s) = s.
Proof.
  revert b. induction s as [|c s IH]; intros b H; [reflexivity|].
  simpl in H.
  assert (is_slug_char c = true \/ c = "-"%char) as Hc.
  { destruct (is_slug_char c); [tauto|].
    destruct (Ascii.eqb_spec c "-"); [tauto|discriminate]. }
  destruct (slug_char_fixed c Hc) as [Hl Ha].
  assert (exists b', dashes_apart b' s = true) as [b' H'].
  { destruct (is_slug_char c); [eauto|].
    destruct (Ascii.eqb c "-"); [|discriminate].
    apply andb_true_iff in H as [_ H]. eauto. }
  simpl. rewrite Hl, Ha, (IH b' H'). reflexivity.
Qed.

Lemma dashes_apart_runs (s : string) :
  forall b r, dashes_apart b s = true -> (r = true -> b = true) ->
              replace_runs r s = s.
Proof.
  induction s as [|c s IH]; intros b r H Hr; [reflexivity|].
  simpl in *. destruct (is_slug_char c).
  - rewrite (IH false false H); [reflexivity|discriminate].
  - destruct (Ascii.eqb_spec c "-") as [->|]; [|discriminate].
    apply andb_true_iff in H as [Hb H]. apply negb_true_iff in Hb. subst b.
    destruct r; [specialize (Hr eq_refl); discriminate|].
    rewrite (IH true true H); tauto.
Qed.

Lemma dashes_apart_no_leading (s : string) :
  dashes_apart true s = true -> strip_leading_dash s = s.
Proof.
  destruct s as [|c s]; [reflexivity|].
  rewrite strip_leading_dash_eq. simpl.
  destruct (is_slug_char c) eqn:Ec.
  - destruct (Ascii.eqb_spec c "-") as [->|]; [discriminate Ec|reflexivity].
  - destruct (Ascii.eqb c "-"); discriminate.
Qed.

Lemma no_trailing_dash (s : string) :
  ends_with_dash s = false -> strip_trailing_dash s = s.
Proof.
  induction s as [|c s IH]; [reflexivity|].
  rewrite strip_trailing_dash_eq. intros H.
  destruct s as [|d s].
  - simpl in H. rewrite H. reflexivity.
  - rewrite IH; [reflexivity|exact H].
Qed.

(** A clean path segment is left as it is. *)
Lemma slug_item_fixed (s : string) :
  slug_shape s = true -> Header.slug_item s = s.
Proof.
  unfold slug_shape. intros H. apply andb_true_iff in H as [Hd He].
  apply negb_true_iff in He.
  unfold slug_item, strip_dashes.
  rewrite (dashes_apart_lower _ _ Hd).
  rewrite (dashes_apart_runs s true false Hd) by discriminate.
  rewrite (dashes_apart_no_leading _ Hd).
  apply no_trailing_dash. exact He.
Qed.

End SlugFacts.

(** X18. Slugging is idempotent: the slug of a slug is that slug, and
    more generally every clean path segment is its own slug. *)
Theorem X18_slug_item_is_idempotent (item : string) :
  Header.slug_item (Header.slug_item item) = Header.slug_item item
  /\ (slug_shape item = true -> Header.slug_item item = item).
Proof.
  split; [|apply slug_item_fixed].
  apply slug_item_fixed. apply slug_item_shape.
Qed.

Lemma X18_witness :
  Header.slug_item "case-studies" = "case-studies".
Proof.
  apply (proj2 (X18_slug_item_is_idempotent "case-studies")). reflexivity.
Defined.

(** X19. The navigation and the guard agree on what needs a session:
    no link an anonymous visitor is shown starts with a protected
    prefix, and every link that only a signed-in user is shown (the
    Dashboard, Discovery Tools and Implementation sections) does,
    whatever groups the user has. *)
Theorem X19_navigation_links_and_protection (u : User) (link : string) :
  (In link (Header.links None) ->
     RouteGuard.isAuthenticatedRoute link = false)
  /\ (In link (Header.links (Some u)) -> ~ In link (Header.links None) ->
        RouteGuard.isAuthenticatedRoute link = true).
Proof.
  split.
  - intros Hin. vm_compute in Hin.
    repeat (destruct Hin as [<-|Hin]; [vm_compute; reflexivity|]).
    destruct Hin.
  - intros Hin Hnot. unfold Header.links, Header.sections in Hin.
    destruct (JsLib.includes (groups u) "DiscoveryAdmin"),
             (JsLib.includes (groups u) "DataWovenAdmin"),
             (JsLib.includes (groups u) "ImplementationUser");
      vm_compute in Hin;
      repeat (destruct Hin as [<-|Hin];
              [first [ vm_compute; reflexivity
                     | exfalso; apply Hnot; vm_compute; tauto ]|]);
      destruct Hin.
Qed.

Lemma X19_witness :
  RouteGuard.isAuthenticatedRoute "/resources/faq" = false
  /\ RouteGuard.isAuthenticatedRoute "/discovery tools/reports" = true.
Proof.
  split.
  - apply (proj1 (X19_navigation_links_and_protection
                    (mkUser "" "" [] ∅) "/resources/faq")).
    vm_compute. tauto.
  - apply (proj2 (X19_navigation_links_and_protection
                    (mkUser "" "" ["DiscoveryAdmin"] ∅)
                    "/discovery tools/reports")).
    + vm_compute. tauto.
    + vm_compute. intros H.
      repeat (destruct H as [H|H]; [discriminate H|]). destruct H.
Defined.




(** X21. The header shows the Implementation section to exactly the
    users to whom the implementation page grants access (members of
    [ImplementationUser] or [DataWovenAdmin]); to a visitor without
    session neither applies. *)
Theorem X21_implementation_section_matches_page_access (user : option User) :
  ImplementationPage.hasImplementationAccess user = true <->
  In "Implementation" (map fst (Header.sections user)).
Proof.
  destruct user as [u|]; simpl.
  - unfold Header.sections.
    destruct (JsLib.includes (groups u) "DiscoveryAdmin"),
             (JsLib.includes (groups u) "DataWovenAdmin"),
             (JsLib.includes (groups u) "ImplementationUser");
      vm_compute; split; intros H;
      try reflexivity; try discriminate H; try tauto;
      repeat (destruct H as [H|H]; [discriminate H|]); destruct H.
  - split; [discriminate|]. vm_compute. intros H.
    repeat (destruct H as [H|H]; [discriminate H|]). destruct H.
Qed.

(** X22. The dashboard shows its permission banner after exactly one
    kind of redirect of the guard: a redirect of the guard carries the
    parameters that make the dashboard set the message if and only if
    it is the refusal of an admin route to an authenticated request of
    another group. *)
Theorem X22_dashboard_banner_follows_admin_refusal
    (request : NextRequest) (u : URL) :
  RouteGuard.middleware request = Redirect u ->
  (DashboardPage.errorMessage (searchParams u) =
     Some "You do not have permission to access that page."
   <-> RouteGuard.isAdminRoute (pathname (url request)) = true
       /\ RouteGuard.isAuthenticated request = true
       /\ cookies request !! USER_GROUP_COOKIE <> Some "DataWovenAdmin")
  /\ (DashboardPage.errorMessage (searchParams u) <> None -> pathname u = "/dashboard").
Proof.
  unfold RouteGuard.middleware.
  destruct (RouteGuard.isAuthenticated request) eqn:Ha; simpl negb;
    rewrite ?andb_false_r, ?andb_true_r; cbv iota.
  - destruct (RouteGuard.isAdminRoute (pathname (url request))) eqn:Hr;
      simpl andb; cbv iota.
    + destruct (Js.strict_neq (cookies request !! USER_GROUP_COOKIE)
                  (Some "DataWovenAdmin")) eqn:Hg.
      * intros H. injection H as <-. split; [|reflexivity].
        split; [|reflexivity]. intros _. repeat split.
        intros E. rewrite E in Hg. vm_compute in Hg. discriminate.
      * destruct (_ && _); intros H; [|discriminate].
        injection H as <-. split; [|intros F; exfalso; apply F; reflexivity].
        split; [discriminate|].
        intros (_ & _ & Hne). rewrite (strict_neq_true _ _ Hne) in Hg.
        discriminate.
    + destruct (_ && _); intros H; [|discriminate].
      injection H as <-. split; [|intros F; exfalso; apply F; reflexivity].
      split; [discriminate|]. intros (F & _). discriminate.
  - destruct (RouteGuard.isAuthenticatedRoute (pathname (url request)));
      intros H; [|discriminate].
    injection H as <-. split; [|intros F; exfalso; apply F; reflexivity].
    split; [discriminate|]. intros (_ & F & _). discriminate.
Qed.

Lemma X22_witness :
  DashboardPage.errorMessage [("error", "unauthorized")] =
    Some "You do not have permission to access that page.".
Proof.
  apply (proj1 (X22_dashboard_banner_follows_admin_refusal
                  (request_for "https://datawoven.example" "/admin"
                     lowercase_admin_jar)
                  {| origin := "https://datawoven.example";
                     pathname := "/dashboard";
                     searchParams := [("error", "unauthorized")] |}
                  eq_refl)).
  repeat split. vm_compute. discriminate.
Defined.

(** ** The login page *)

Ltac step_page :=
  unfold LoginPage.handleSubmit, LoginPage.handlePasswordChange,
    LoginPage.push_redirect, LoginPage.console_error, LoginPage.on_store,
    LoginPage.setError, LoginPage.setLoading, LoginPage.setNeedsPasswordChange,
    LoginPage.router_push,
    Handler.try_finally, Handler.try_catch, Handler.bind, Handler.await,
    Handler.modify, Handler.ret;
  cbn [fst snd LoginPage.auth LoginPage.search LoginPage.pushed LoginPage.email
       LoginPage.password LoginPage.newPassword LoginPage.confirmPassword
       LoginPage.error LoginPage.loading LoginPage.needsPasswordChange].

Section LoginPageFacts.

Variable p : Provider.
Variable s : LoginPage.state.

Let em := LoginPage.email s.
Let pw := LoginPage.password s.

(** The store after the [login] call of the handler. *)
Let w_login := snd (AuthProvider.login p em pw (LoginPage.auth s)).

Lemma handleSubmit_rejected (e : Error) :
  signIn p em pw = Throw e ->
  LoginPage.handleSubmit p s =
    (Normal tt,
     {| LoginPage.auth :=
          {| user := user w_login; loading := loading w_login;
             window := window w_login;
             console := (console w_login ++ [LogError "Login error:" e])%list |};
        LoginPage.search := LoginPage.search s;
        LoginPage.pushed := LoginPage.pushed s;
        LoginPage.email := em; LoginPage.password := pw;
        LoginPage.newPassword := LoginPage.newPassword s;
        LoginPage.confirmPassword := LoginPage.confirmPassword s;
        LoginPage.error :=
          Js.or_else (Some e) "Failed to sign in. Please check your credentials.";
        LoginPage.loading := false;
        LoginPage.needsPasswordChange := LoginPage.needsPasswordChange s |}).
Proof.
  intros E. unfold w_login, em, pw in *. step_page.
  rewrite (login_rethrows p _ _ _ e E). reflexivity.
Qed.

Lemma handleSubmit_challenge (r : Amplify.SignInOutput) :
  signIn p em pw = Normal r ->
  Amplify.signInStep r = "CONFIRM_SIGN_IN_WITH_NEW_PASSWORD_REQUIRED" ->
  LoginPage.handleSubmit p s =
    (Normal tt,
     {| LoginPage.auth := w_login;
        LoginPage.search := LoginPage.search s;
        LoginPage.pushed := LoginPage.pushed s;
        LoginPage.email := em; LoginPage.password := pw;
        LoginPage.newPassword := LoginPage.newPassword s;
        LoginPage.confirmPassword := LoginPage.confirmPassword s;
        LoginPage.error := "";
        LoginPage.loading := false;
        LoginPage.needsPasswordChange := true |}).
Proof.
  intros E Hs. unfold w_login, em, pw in *. step_page.
  rewrite (login_returns p _ _ _ r E), Hs. reflexivity.
Qed.

Lemma handleSubmit_signed_in (r : Amplify.SignInOutput) :
  signIn p em pw = Normal r ->
  Amplify.signInStep r <> "CONFIRM_SIGN_IN_WITH_NEW_PASSWORD_REQUIRED" ->
  Amplify.isSignedIn r = true ->
  LoginPage.handleSubmit p s =
    (Normal tt,
     {| LoginPage.auth := snd (AuthProvider.refreshUser p w_login);
        LoginPage.search := LoginPage.search s;
        LoginPage.pushed :=
          (LoginPage.pushed s ++
           [Js.or_else (JsLib.searchParams_get "redirect" (LoginPage.search s))
              "/dashboard"])%list;
        LoginPage.email := em; LoginPage.password := pw;
        LoginPage.newPassword := LoginPage.newPassword s;
        LoginPage.confirmPassword := LoginPage.confirmPassword s;
        LoginPage.error := "";
        LoginPage.loading := false;
        LoginPage.needsPasswordChange := LoginPage.needsPasswordChange s |}).
Proof.
  intros E Hs Hi. unfold w_login, em, pw in *. step_page.
  rewrite (login_returns p _ _ _ r E).
  apply String.eqb_neq in Hs. rewrite Hs, Hi.
  cbn [fst snd LoginPage.auth].
  match goal with
  | |- context [AuthProvider.refreshUser p ?w] =>
      pose proof (refreshUser_returns p w) as Hr;
      destruct (AuthProvider.refreshUser p w) as [r0 w'] eqn:R
  end.
  simpl in Hr. subst r0. reflexivity.
Qed.

Lemma handleSubmit_neither (r : Amplify.SignInOutput) :
  signIn p em pw = Normal r ->
  Amplify.signInStep r <> "CONFIRM_SIGN_IN_WITH_NEW_PASSWORD_REQUIRED" ->
  Amplify.isSignedIn r = false ->
  LoginPage.handleSubmit p s =
    (Normal tt,
     {| LoginPage.auth := w_login;
        LoginPage.search := LoginPage.search s;
        LoginPage.pushed := LoginPage.pushed s;
        LoginPage.email := em; LoginPage.password := pw;
        LoginPage.newPassword := LoginPage.newPassword s;
        LoginPage.confirmPassword := LoginPage.confirmPassword s;
        LoginPage.error := "";
        LoginPage.loading := false;
        LoginPage.needsPasswordChange := LoginPage.needsPasswordChange s |}).
Proof.
  intros E Hs Hi. unfold w_login, em, pw in *. step_page.
  rewrite (login_returns p _ _ _ r E).
  apply String.eqb_neq in Hs. rewrite Hs, Hi. reflexivity.
Qed.

End LoginPageFacts.

Lemma protected_path_nonempty (path : string) :
  RouteGuard.isAuthenticatedRoute path = true -> path <> "".
Proof. intros H ->. discriminate H. Qed.

(** X23. [handleSubmit] of the login page never throws and always
    ends with the page's loading flag down.  When sign-in is rejected
    it shows the error's message, or a fixed text when the message is
    empty, navigates nowhere, and leaves session, cookies and the
    password-change flag as they were. *)
Theorem X23_login_handleSubmit_contains_failures
    (p : Provider) (s : LoginPage.state) :
  fst (LoginPage.handleSubmit p s) = Normal tt
  /\ LoginPage.loading (snd (LoginPage.handleSubmit p s)) = false
  /\ (forall e,
        signIn p (LoginPage.email s) (LoginPage.password s) = Throw e ->
        let s' := snd (LoginPage.handleSubmit p s) in
        LoginPage.error s' =
          (if String.eqb e "" then
             "Failed to sign in. Please check your credentials." else e)
        /\ LoginPage.pushed s' = LoginPage.pushed s
        /\ LoginPage.needsPasswordChange s' = LoginPage.needsPasswordChange s
        /\ user (LoginPage.auth s') = user (LoginPage.auth s)
        /\ window (LoginPage.auth s') = window (LoginPage.auth s)).
Proof.
  assert (fst (LoginPage.handleSubmit p s) = Normal tt
          /\ LoginPage.loading (snd (LoginPage.handleSubmit p s)) = false) as H.
  { destruct (signIn p (LoginPage.email s) (LoginPage.password s)) as [r|e] eqn:E.
    - destruct (String.eqb_spec (Amplify.signInStep r)
                  "CONFIRM_SIGN_IN_WITH_NEW_PASSWORD_REQUIRED") as [Hs|Hs].
      + rewrite (handleSubmit_challenge p s r E Hs). split; reflexivity.
      + destruct (Amplify.isSignedIn r) eqn:Hi.
        * rewrite (handleSubmit_signed_in p s r E Hs Hi). split; reflexivity.
        * rewrite (handleSubmit_neither p s r E Hs Hi). split; reflexivity.
    - rewrite (handleSubmit_rejected p s e E). split; reflexivity. }
  destruct H as [H1 H2]. split; [exact H1|]. split; [exact H2|].
  intros e E. cbv zeta. rewrite (handleSubmit_rejected p s e E).
  cbn [snd LoginPage.error LoginPage.pushed LoginPage.needsPasswordChange
       LoginPage.auth user window].
  rewrite (login_rethrows p _ _ _ e E). cbn [snd user window].
  repeat split.
Qed.

Lemma X23_witness :
  LoginPage.error
    (snd (LoginPage.handleSubmit (provider_failing "Incorrect username or password.")
            (login_form []))) = "Incorrect username or password."
  /\ LoginPage.pushed
       (snd (LoginPage.handleSubmit (provider_failing "Incorrect username or password.")
               (login_form []))) = [].
Proof.
  destruct (X23_login_handleSubmit_contains_failures
              (provider_failing "Incorrect username or password.")
              (login_form [])) as (_ & _ & H).
  destruct (H "Incorrect username or password." eq_refl) as (He & Hp & _).
  split; [exact He|exact Hp].
Defined.

(** X24. The login page brings the user back to where the guard
    stopped them: when the guard has redirected an unauthenticated
    request for a protected path to [/login], and sign-in then
    succeeds, [handleSubmit] refreshes the session and pushes exactly
    that path; without a [redirect] parameter it pushes
    [/dashboard]. *)
Theorem X24_login_returns_to_intercepted_path
    (request : NextRequest) (p : Provider) (s : LoginPage.state)
    (r : Amplify.SignInOutput) :
  signIn p (LoginPage.email s) (LoginPage.password s) = Normal r ->
  Amplify.signInStep r <> "CONFIRM_SIGN_IN_WITH_NEW_PASSWORD_REQUIRED" ->
  Amplify.isSignedIn r = true ->
  LoginPage.auth (snd (LoginPage.handleSubmit p s)) =
    snd (AuthProvider.refreshUser p
           (snd (AuthProvider.login p (LoginPage.email s) (LoginPage.password s)
                   (LoginPage.auth s))))
  /\ (JsLib.searchParams_get "redirect" (LoginPage.search s) = None ->
      LoginPage.pushed (snd (LoginPage.handleSubmit p s)) =
        (LoginPage.pushed s ++ ["/dashboard"])%list)
  /\ (RouteGuard.isAuthenticatedRoute (pathname (url request)) = true ->
      RouteGuard.isAuthenticated request = false ->
      exists u,
        RouteGuard.middleware request = Redirect u
        /\ pathname u = "/login"
        /\ (LoginPage.search s = searchParams u ->
            LoginPage.pushed (snd (LoginPage.handleSubmit p s)) =
              (LoginPage.pushed s ++ [pathname (url request)])%list)).
Proof.
  intros E Hs Hi. rewrite (handleSubmit_signed_in p s r E Hs Hi).
  cbn [snd LoginPage.auth LoginPage.pushed].
  split; [reflexivity|]. split.
  - intros ->. reflexivity.
  - intros Hr Ha. rewrite (middleware_unauthenticated request Hr Ha).
    eexists. split; [reflexivity|]. split; [reflexivity|].
    cbn [searchParams]. intros ->. simpl JsLib.searchParams_get.
    unfold Js.or_else.
    destruct (String.eqb_spec (pathname (url request)) "") as [F|_];
      [|reflexivity].
    exfalso. exact (protected_path_nonempty _ Hr F).
Qed.

Lemma X24_witness :
  LoginPage.pushed
    (snd (LoginPage.handleSubmit (provider_signed_in (Some ["ImplementationUser"]))
            (login_form [("redirect", "/implementation/chat")])))
  = ["/implementation/chat"].
Proof.
  destruct (X24_login_returns_to_intercepted_path
              (request_for "https://datawoven.example" "/implementation/chat" ∅)
              (provider_signed_in (Some ["ImplementationUser"]))
              (login_form [("redirect", "/implementation/chat")])
              {| Amplify.isSignedIn := true; Amplify.signInStep := "DONE" |}
              eq_refl ltac:(discriminate) eq_refl) as (_ & _ & H).
  destruct (H eq_refl eq_refl) as (u & Hm & _ & Hp).
  apply Hp. vm_compute in Hm. injection Hm as <-. reflexivity.
Defined.

(** X25. When sign-in answers with the new-password challenge,
    [handleSubmit] switches the page to the password form and does
    nothing else, even if the outcome also says signed-in: no refresh,
    no cookie, no navigation. *)
Theorem X25_login_challenge_switches_form
    (p : Provider) (s : LoginPage.state) (r : Amplify.SignInOutput) :
  signIn p (LoginPage.email s) (LoginPage.password s) = Normal r ->
  Amplify.signInStep r = "CONFIRM_SIGN_IN_WITH_NEW_PASSWORD_REQUIRED" ->
  let s' := snd (LoginPage.handleSubmit p s) in
  LoginPage.needsPasswordChange s' = true
  /\ LoginPage.pushed s' = LoginPage.pushed s
  /\ LoginPage.error s' = ""
  /\ user (LoginPage.auth s') = user (LoginPage.auth s)
  /\ loading (LoginPage.auth s') = loading (LoginPage.auth s)
  /\ window (LoginPage.auth s') = window (LoginPage.auth s).
Proof.
  intros E Hs. cbv zeta. rewrite (handleSubmit_challenge p s r E Hs).
  cbn [snd LoginPage.needsPasswordChange LoginPage.pushed LoginPage.error
       LoginPage.auth].
  rewrite (login_returns p _ _ _ r E). repeat split.
Qed.

Lemma X25_witness :
  LoginPage.needsPasswordChange
    (snd (LoginPage.handleSubmit provider_challenging (login_form []))) = true
  /\ window (LoginPage.auth
       (snd (LoginPage.handleSubmit provider_challenging (login_form []))))
     = Some ∅.
Proof.
  destruct (X25_login_challenge_switches_form provider_challenging
              (login_form [])
              {| Amplify.isSignedIn := true;
                 Amplify.signInStep := "CONFIRM_SIGN_IN_WITH_NEW_PASSWORD_REQUIRED" |}
              eq_refl eq_refl) as (H1 & _ & _ & _ & _ & H2).
  split; [exact H1|exact H2].
Defined.

Ltac step_reset :=
  unfold ResetPasswordPage.handleSubmit, ResetPasswordPage.console_error,
    ResetPasswordPage.setError, ResetPasswordPage.setLoading,
    ResetPasswordPage.setSuccess, ResetPasswordPage.setTimeout_push,
    ForgotPasswordPage.handleSubmit, ForgotPasswordPage.console_error,
    ForgotPasswordPage.setError, ForgotPasswordPage.setLoading,
    ForgotPasswordPage.setSuccess,
    Handler.try_finally, Handler.try_catch, Handler.bind, Handler.await,
    Handler.modify, Handler.ret;
  cbn [fst snd ResetPasswordPage.email ResetPasswordPage.code
       ResetPasswordPage.newPassword ResetPasswordPage.confirmPassword
       ResetPasswordPage.loading ResetPasswordPage.error
       ResetPasswordPage.success ResetPasswordPage.timeouts
       ResetPasswordPage.console
       ForgotPasswordPage.email ForgotPasswordPage.loading
       ForgotPasswordPage.error ForgotPasswordPage.success
       ForgotPasswordPage.console].

(** X26. [handlePasswordChange] validates before it calls anybody: if
    the two passwords differ it only sets "Passwords do not match", and
    if they agree but have fewer than 12 characters it only sets
    "Password must be at least 12 characters"; in both cases neither
    the provider nor the store nor the router is touched.  A matching
    password of 12 characters or more goes to [confirmSignIn] together
    with the part of the email before the first [@]; a rejection is
    shown as error without navigation, a success refreshes the session
    and navigates.  The handler never throws. *)
Theorem X26_password_change_validates_first
    (confirmSignIn : string -> string -> Completion unit)
    (p : Provider) (s : LoginPage.state) :
  (LoginPage.newPassword s <> LoginPage.confirmPassword s ->
     LoginPage.handlePasswordChange confirmSignIn p s =
       (Normal tt, with_error s "Passwords do not match"))
  /\ (LoginPage.newPassword s = LoginPage.confirmPassword s ->
      String.length (LoginPage.newPassword s) < 12 ->
      LoginPage.handlePasswordChange confirmSignIn p s =
        (Normal tt, with_error s "Password must be at least 12 characters"))
  /\ (LoginPage.newPassword s = LoginPage.confirmPassword s ->
      12 <= String.length (LoginPage.newPassword s) ->
      let outcome := confirmSignIn (LoginPage.newPassword s)
                       (JsLib.before "@" (LoginPage.email s)) in
      let s' := snd (LoginPage.handlePasswordChange confirmSignIn p s) in
      fst (LoginPage.handlePasswordChange confirmSignIn p s) = Normal tt
      /\ LoginPage.loading s' = false
      /\ (forall e, outcome = Throw e ->
            LoginPage.error s' =
              (if String.eqb e "" then "Failed to change password" else e)
            /\ LoginPage.pushed s' = LoginPage.pushed s
            /\ user (LoginPage.auth s') = user (LoginPage.auth s)
            /\ window (LoginPage.auth s') = window (LoginPage.auth s))
      /\ (forall u, outcome = Normal u ->
            LoginPage.error s' = ""
            /\ LoginPage.auth s' =
                 snd (AuthProvider.refreshUser p (LoginPage.auth s))
            /\ LoginPage.pushed s' =
                 (LoginPage.pushed s ++
                  [Js.or_else
                     (JsLib.searchParams_get "redirect" (LoginPage.search s))
                     "/dashboard"])%list)).
Proof.
  split; [|split].
  - intros Hne. apply String.eqb_neq in Hne. step_page. rewrite Hne.
    reflexivity.
  - intros Heq Hlen. step_page.
    rewrite (proj2 (String.eqb_eq _ _) Heq).
    apply Nat.ltb_lt in Hlen. rewrite Hlen. reflexivity.
  - intros Heq Hlen. cbv zeta. step_page.
    rewrite (proj2 (String.eqb_eq _ _) Heq).
    apply Nat.ltb_ge in Hlen. rewrite Hlen.
    unfold Async.log.
    cbn [negb fst snd LoginPage.auth LoginPage.loading LoginPage.error
         LoginPage.pushed LoginPage.search user window loading console].
    destruct (confirmSignIn (LoginPage.newPassword s)
                (JsLib.before "@" (LoginPage.email s))) as [u|e].
    + match goal with
      | |- context [AuthProvider.refreshUser p ?w] =>
          pose proof (refreshUser_returns p w) as Hr;
          destruct (AuthProvider.refreshUser p w) as [r0 w'] eqn:R
      end.
      simpl in Hr. subst r0.
      cbn [fst snd LoginPage.auth LoginPage.loading LoginPage.error
           LoginPage.pushed LoginPage.search].
      repeat split; try discriminate.
    + cbn [fst snd LoginPage.auth LoginPage.loading LoginPage.error
           LoginPage.pushed LoginPage.search user window].
      repeat split; try discriminate.
      match goal with H : Throw _ = Throw _ |- _ => injection H as <- end.
      reflexivity.
Qed.

Lemma X26_witness :
  LoginPage.handlePasswordChange (fun _ _ => Normal tt)
    (provider_signed_in None)
    {| LoginPage.auth := initial; LoginPage.search := [];
       LoginPage.pushed := []; LoginPage.email := "ann@datawoven.example";
       LoginPage.password := "temporary";
       LoginPage.newPassword := "elevenchars";
       LoginPage.confirmPassword := "elevenchars";
       LoginPage.error := "old"; LoginPage.loading := false;
       LoginPage.needsPasswordChange := true |} =
  (Normal tt,
   {| LoginPage.auth := initial; LoginPage.search := [];
      LoginPage.pushed := []; LoginPage.email := "ann@datawoven.example";
      LoginPage.password := "temporary";
      LoginPage.newPassword := "elevenchars";
      LoginPage.confirmPassword := "elevenchars";
      LoginPage.error := "Password must be at least 12 characters";
      LoginPage.loading := false;
      LoginPage.needsPasswordChange := true |}).
Proof.
  apply (X26_password_change_validates_first (fun _ _ => Normal tt)
           (provider_signed_in None)
           {| LoginPage.auth := initial; LoginPage.search := [];
              LoginPage.pushed := []; LoginPage.email := "ann@datawoven.example";
              LoginPage.password := "temporary";
              LoginPage.newPassword := "elevenchars";
              LoginPage.confirmPassword := "elevenchars";
              LoginPage.error := "old"; LoginPage.loading := false;
              LoginPage.needsPasswordChange := true |}).
  - reflexivity.
  - simpl. lia.
Defined.

(** ** The password pages *)

(** X27. [handleSubmit] of the reset-password page applies the same
    two checks in the same order before it calls the provider, and
    changes nothing but the error text when one fails.  With a valid
    password it never throws and ends with the loading flag down: when
    [confirmResetPassword] resolves it marks success and schedules one
    navigation to [/login] after 2000 ms; when it rejects it shows the
    message (or a fixed text), schedules nothing and leaves the success
    flag alone. *)
Theorem X27_reset_password_validates_first
    (confirmResetPassword : string -> string -> string -> Completion unit)
    (s : ResetPasswordPage.state) :
  (ResetPasswordPage.newPassword s <> ResetPasswordPage.confirmPassword s ->
     ResetPasswordPage.handleSubmit confirmResetPassword s =
       (Normal tt, reset_with_error s "Passwords do not match"))
  /\ (ResetPasswordPage.newPassword s = ResetPasswordPage.confirmPassword s ->
      String.length (ResetPasswordPage.newPassword s) < 12 ->
      ResetPasswordPage.handleSubmit confirmResetPassword s =
        (Normal tt,
         reset_with_error s "Password must be at least 12 characters"))
  /\ (ResetPasswordPage.newPassword s = ResetPasswordPage.confirmPassword s ->
      12 <= String.length (ResetPasswordPage.newPassword s) ->
      let outcome := confirmResetPassword (ResetPasswordPage.email s)
                       (ResetPasswordPage.code s)
                       (ResetPasswordPage.newPassword s) in
      let s' := snd (ResetPasswordPage.handleSubmit confirmResetPassword s) in
      fst (ResetPasswordPage.handleSubmit confirmResetPassword s) = Normal tt
      /\ ResetPasswordPage.loading s' = false
      /\ (forall u, outcome = Normal u ->
            ResetPasswordPage.success s' = true
            /\ ResetPasswordPage.error s' = ""
            /\ ResetPasswordPage.timeouts s' =
                 (ResetPasswordPage.timeouts s ++ [(2000, "/login")])%list)
      /\ (forall e, outcome = Throw e ->
            ResetPasswordPage.success s' = ResetPasswordPage.success s
            /\ ResetPasswordPage.error s' =
                 (if String.eqb e "" then
                    "Failed to reset password. Please check your code and try again."
                  else e)
            /\ ResetPasswordPage.timeouts s' = ResetPasswordPage.timeouts s)).
Proof.
  split; [|split].
  - intros Hne. apply String.eqb_neq in Hne. step_reset. rewrite Hne.
    reflexivity.
  - intros Heq Hlen. step_reset.
    rewrite (proj2 (String.eqb_eq _ _) Heq).
    apply Nat.ltb_lt in Hlen. rewrite Hlen. reflexivity.
  - intros Heq Hlen. cbv zeta. step_reset.
    rewrite (proj2 (String.eqb_eq _ _) Heq).
    apply Nat.ltb_ge in Hlen. rewrite Hlen.
    cbn [negb].
    destruct (confirmResetPassword (ResetPasswordPage.email s)
                (ResetPasswordPage.code s) (ResetPasswordPage.newPassword s))
      as [u|e];
      cbn [fst snd ResetPasswordPage.loading ResetPasswordPage.error
           ResetPasswordPage.success ResetPasswordPage.timeouts];
      repeat split; try discriminate.
    match goal with H : Throw _ = Throw _ |- _ => injection H as <- end.
    reflexivity.
Qed.

Lemma X27_witness :
  fst (ResetPasswordPage.handleSubmit (fun _ _ _ => Throw "Invalid code")
         {| ResetPasswordPage.email := "ann@datawoven.example";
            ResetPasswordPage.code := "000000";
            ResetPasswordPage.newPassword := "twelve-chars";
            ResetPasswordPage.confirmPassword := "twelve-chars";
            ResetPasswordPage.loading := false;
            ResetPasswordPage.error := "";
            ResetPasswordPage.success := false;
            ResetPasswordPage.timeouts := [];
            ResetPasswordPage.console := [] |}) = Normal tt.
Proof.
  apply (X27_reset_password_validates_first (fun _ _ _ => Throw "Invalid code")
           {| ResetPasswordPage.email := "ann@datawoven.example";
              ResetPasswordPage.code := "000000";
              ResetPasswordPage.newPassword := "twelve-chars";
              ResetPasswordPage.confirmPassword := "twelve-chars";
              ResetPasswordPage.loading := false;
              ResetPasswordPage.error := "";
              ResetPasswordPage.success := false;
              ResetPasswordPage.timeouts := [];
              ResetPasswordPage.console := [] |}).
  - reflexivity.
  - simpl. lia.
Defined.

(** X28. [handleSubmit] of the forgot-password page never throws and
    ends with the loading flag down; success is marked exactly when
    [resetPassword] resolved for the typed email, and a rejection shows
    the message, or a fixed text when it is empty, with the success
    flag as it was. *)
Theorem X28_forgot_password_outcome
    (resetPassword : string -> Completion unit) (s : ForgotPasswordPage.state) :
  let s' := snd (ForgotPasswordPage.handleSubmit resetPassword s) in
  fst (ForgotPasswordPage.handleSubmit resetPassword s) = Normal tt
  /\ ForgotPasswordPage.loading s' = false
  /\ ForgotPasswordPage.email s' = ForgotPasswordPage.email s
  /\ match resetPassword (ForgotPasswordPage.email s) with
     | Normal _ =>
         ForgotPasswordPage.success s' = true
         /\ ForgotPasswordPage.error s' = ""
     | Throw e =>
         ForgotPasswordPage.success s' = ForgotPasswordPage.success s
         /\ ForgotPasswordPage.error s' =
              (if String.eqb e "" then
                 "Failed to send reset code. Please try again." else e)
     end.
Proof.
  cbv zeta. step_reset.
  destruct (resetPassword (ForgotPasswordPage.email s)) as [u|e];
    cbn [fst snd ForgotPasswordPage.loading ForgotPasswordPage.error
         ForgotPasswordPage.success ForgotPasswordPage.email];
    repeat split.
Qed.
